(** * create-minecraft-server.py: tunnel supervision and server orchestration

    A shallow embedding of the process-orchestration core of
    [create-minecraft-server.py]: the two tunnel services, the tunnel
    registry, the heap-size computation and [run_server] with its output
    monitors, followed by the properties the specification states about
    them.

    Conventions.
    - A Python [str] is a [string]: the text as a sequence of bytes, the
      way the child processes write it and the way the literals of the
      source are encoded.  [lower], [strip] and [split] follow Python on
      the ASCII range, which is what the tunnel agents and the server
      print; bytes above 127 are left alone by [lower] and are never
      whitespace.  The words looked for in the output ("Done (", "agent
      connected", "tunnel ready", "tcp://") are ASCII, and no letter of
      them is the lower case of a non-ASCII character.
    - Effects are made explicit: every call that touches the outside world
      appends an [event] to a trace, and takes its result from a [World]
      of oracles.  A computation yields its trace and either a value or the
      exception it raised. *)

From Stdlib Require Import String Ascii ZArith List Bool Lia DecimalString.
Import ListNotations.

Set Warnings "-register-all".

Local Open Scope string_scope.
Local Open Scope Z_scope.

(** ** Python string operations *)

Module PyStr.

Definition nl : string := String (ascii_of_nat 10) EmptyString.

Definition is_empty (s : string) : bool :=
  match s with EmptyString => true | String _ _ => false end.

(** [needle in hay] *)
Fixpoint contains (needle hay : string) : bool :=
  prefix needle hay
  || match hay with
     | EmptyString => false
     | String _ hay' => contains needle hay'
     end.

Definition lower_char (c : ascii) : ascii :=
  let n := N_of_ascii c in
  if ((65 <=? n) && (n <=? 90))%N then ascii_of_N (n + 32) else c.

(** [s.lower()] *)
Fixpoint lower (s : string) : string :=
  match s with
  | EmptyString => EmptyString
  | String c s' => String (lower_char c) (lower s')
  end.

(** The characters [str.isspace] accepts below 128: tab, line feed,
    vertical tab, form feed, carriage return, the four separators
    0x1c-0x1f and the space. *)
Definition is_space (c : ascii) : bool :=
  let n := N_of_ascii c in
  (((9 <=? n) && (n <=? 13)) || ((28 <=? n) && (n <=? 32)))%N.

Fixpoint lstrip (s : string) : string :=
  match s with
  | EmptyString => EmptyString
  | String c s' => if is_space c then lstrip s' else s
  end.

Fixpoint rstrip (s : string) : string :=
  match s with
  | EmptyString => EmptyString
  | String c s' =>
      let r := rstrip s' in
      if is_space c && is_empty r then EmptyString else String c r
  end.

(** [s.strip()] *)
Definition strip (s : string) : string := rstrip (lstrip s).

(** [split_from cur s]: the tokens of [s], where [cur] holds the
    characters of the token being read. *)
Fixpoint split_from (cur s : string) : list string :=
  match s with
  | EmptyString => if is_empty cur then [] else [cur]
  | String c s' =>
      if is_space c
      then (if is_empty cur then split_from EmptyString s'
            else cur :: split_from EmptyString s')
      else split_from (cur ++ String c EmptyString) s'
  end.

(** [s.split()] with no separator: maximal runs of non-whitespace. *)
Definition split (s : string) : list string := split_from EmptyString s.

(** [l[-1]]; [None] stands for [IndexError]. *)
Fixpoint last_item {A} (l : list A) : option A :=
  match l with
  | [] => None
  | [x] => Some x
  | _ :: l' => last_item l'
  end.

(** [replace_from skip old new s]: [skip] characters of [s] belong to an
    occurrence of [old] that has already been replaced. *)
Fixpoint replace_from (skip : nat) (old new s : string) : string :=
  match s with
  | EmptyString => EmptyString
  | String c s' =>
      match skip with
      | S k => replace_from k old new s'
      | O =>
          if prefix old s
          then new ++ replace_from (Nat.pred (String.length old)) old new s'
          else String c (replace_from O old new s')
      end
  end.

(** [s.replace(old, new)] for a non-empty [old]: every occurrence,
    scanning left to right without overlap. *)
Definition replace (old new s : string) : string := replace_from O old new s.

(** [str(n)] for an integer. *)
Definition str (n : Z) : string := NilZero.string_of_int (Z.to_int n).

(** [os.path.join(a, b)] on POSIX paths. *)
Definition path_join (a b : string) : string :=
  if prefix "/" b then b
  else if is_empty a then b
  else match last_item (list_ascii_of_string a) with
       | Some "/"%char => a ++ b
       | _ => a ++ "/" ++ b
       end.

End PyStr.

(** ** Effects: events, exceptions and the trace monad *)

Inductive color := RESET | GREEN | YELLOW | BLUE | RED | CYAN.

(** The two child processes [run_server] owns. *)
Inductive proc := TunnelProc | ServerProc.

Inductive event :=
| Log (message : string) (c : color) (end_ : string)  (* log_message *)
| Print (text : string)                               (* print *)
| Run (args : list string)                            (* subprocess.run *)
| RunShell (command : string)               (* subprocess.run, shell=True *)
| Chdir (path : string)                               (* os.chdir *)
| Prompt (message : string) (choices : list string)   (* inquirer.prompt *)
| Popen (p : proc) (args : list string)               (* subprocess.Popen *)
| ThreadStart (target : string)             (* daemon Thread(...).start() *)
| Wait (p : proc)                                     (* p.wait() *)
| Terminate (p : proc)                                (* p.terminate() *)
| HttpGet (url : string)                              (* requests.get *)
| Sleep (seconds : Z).                                (* time.sleep *)

(** [KeyboardInterrupt] is not an [Exception]; every other exception the
    program meets is one, and carries its class name and message. *)
Inductive exn :=
| KeyboardInterrupt
| Exception (cls msg : string).

Inductive outcome (A : Type) :=
| Returned (a : A)
| Raised (e : exn).
Arguments Returned {A} a.
Arguments Raised {A} e.

Definition M (A : Type) : Type := list event * outcome A.

Definition ret {A} (a : A) : M A := ([], Returned a).
Definition raise {A} (e : exn) : M A := ([], Raised e).
Definition emit (ev : event) : M unit := ([ev], Returned tt).
Definition lift {A} (o : outcome A) : M A := ([], o).

Definition bind {A B} (c : M A) (k : A -> M B) : M B :=
  match c with
  | (t, Returned a) => let (t', o) := k a in ((t ++ t')%list, o)
  | (t, Raised e) => (t, Raised e)
  end.

Declare Scope py_scope.
Delimit Scope py_scope with py.
Notation "x <- c ;; k" := (bind c (fun x => k))
  (at level 61, c at next level, right associativity) : py_scope.
Notation "c ;; k" := (bind c (fun _ => k))
  (at level 61, right associativity) : py_scope.
Local Open Scope py_scope.

Definition trace {A} (c : M A) : list event := fst c.
Definition result {A} (c : M A) : outcome A := snd c.

(** [try: c / except Exception as e: h str(e)] *)
Definition try_except_Exception {A} (c : M A) (h : string -> M A) : M A :=
  match c with
  | (t, Raised (Exception _ msg)) => let (t', o) := h msg in ((t ++ t')%list, o)
  | _ => c
  end.

(** [try: c / except KeyboardInterrupt: h] *)
Definition try_except_KeyboardInterrupt {A} (c : M A) (h : M A) : M A :=
  match c with
  | (t, Raised KeyboardInterrupt) => let (t', o) := h in ((t ++ t')%list, o)
  | _ => c
  end.

(** [try: c / finally: f].  The [finally] body always runs; the outcome of
    [c] stands unless [f] itself raises. *)
Definition try_finally {A} (c : M A) (f : M unit) : M A :=
  let (t, o) := c in
  let (t', o') := f in
  ((t ++ t')%list, match o' with Raised e => Raised e | Returned _ => o end).

Definition log_message (message : string) (c : color) : M unit :=
  emit (Log message c PyStr.nl).

Definition log_message_end (message : string) (c : color) (end_ : string)
  : M unit :=
  emit (Log message c end_).

(** ** The outside world *)

Record World := {
  BASE_DIR : string;                   (* os.path.abspath("Minecraft-servers") *)
  path_exists : string -> bool;        (* os.path.exists *)
  chdir_result : string -> outcome unit;
  run_result : list string -> outcome Z;     (* return code of subprocess.run *)
  run_shell_result : string -> outcome Z;
  load_config : outcome unit;          (* open + json.load of server_config.json *)
  prompt_answer : option string;       (* answer['tunnel_service']; None when
                                          the prompt was abandoned *)
  getenv : string -> option string;    (* os.getenv *)
  popen_result : proc -> outcome unit; (* subprocess.Popen succeeds or raises *)
  total : Z;                           (* psutil.virtual_memory().total *)
  wait_result : outcome Z              (* server_process.wait() *)
}.

Definition subprocess_run (w : World) (args : list string) : M Z :=
  emit (Run args) ;; lift (run_result w args).

Definition subprocess_run_shell (w : World) (command : string) : M Z :=
  emit (RunShell command) ;; lift (run_shell_result w command).

Definition subprocess_Popen (w : World) (p : proc) (args : list string)
  : M proc :=
  emit (Popen p args) ;; lift (popen_result w p) ;; ret p.

(** ** Tunnel services *)

Definition default_auth_token : string :=
  "2ntG1Do0RPAj8ozh2Bmdt5oc3tw_3L4tzn1UZfXFnFr8Kau2n".

Inductive TunnelService :=
| NgrokTunnel (local_port : Z) (auth_token : option string)
| PlayitGGTunnel (local_port : Z).

(** [NgrokTunnel.__init__]: [self.auth_token = auth_token or
    os.getenv("NGROK_AUTH_TOKEN")]. *)
Definition NgrokTunnel_init (w : World) (local_port : Z) (auth_token : string)
  : TunnelService :=
  NgrokTunnel local_port
    (if PyStr.is_empty auth_token then getenv w "NGROK_AUTH_TOKEN"
     else Some auth_token).

(** [not self.auth_token] *)
Definition token_missing (auth_token : option string) : bool :=
  match auth_token with
  | None => true
  | Some t => PyStr.is_empty t
  end.

Definition no_token_warning : event :=
  Log "⚠️  No Ngrok authentication token provided." RED PyStr.nl.

Definition NgrokTunnel_start_tunnel (w : World) (local_port : Z)
  (auth_token : option string) : M (option proc) :=
  match auth_token with
  | Some t =>
      if PyStr.is_empty t then emit no_token_warning ;; ret None
      else
        subprocess_run w ["ngrok"; "config"; "add-authtoken"; t] ;;
        log_message "🚀 Starting Ngrok tunnel service..." CYAN ;;
        tunnel_process <-
          subprocess_Popen w TunnelProc ["ngrok"; "tcp"; PyStr.str local_port] ;;
        emit (ThreadStart "get_public_url") ;;
        ret (Some tunnel_process)
  | None => emit no_token_warning ;; ret None
  end.

Definition PlayitGGTunnel_start_tunnel (w : World) : M (option proc) :=
  log_message "🚀 Starting Playit.gg tunnel service..." CYAN ;;
  tunnel_process <- subprocess_Popen w TunnelProc ["playit"; "run"] ;;
  emit (ThreadStart "read_output") ;;
  ret (Some tunnel_process).

Definition start_tunnel (w : World) (s : TunnelService) : M (option proc) :=
  match s with
  | NgrokTunnel local_port auth_token =>
      NgrokTunnel_start_tunnel w local_port auth_token
  | PlayitGGTunnel _ => PlayitGGTunnel_start_tunnel w
  end.

Definition address_notice (address : string) : event :=
  Log ("✨ Server accessible at: " ++ address) GREEN PyStr.nl.

(** *** Ngrok: polling the local status endpoint *)

(** Values [response.json()] can return. *)
Inductive json :=
| JNull
| JBool (b : bool)
| JNum (literal : string)
| JStr (s : string)
| JList (items : list json)
| JDict (items : list (string * json)).

Fixpoint dict_get (items : list (string * json)) (key : string)
  : option json :=
  match items with
  | [] => None
  | (k, v) :: items' => if String.eqb k key then Some v else dict_get items' key
  end.

(** [v[key]] for a string key. *)
Definition getitem_key (v : json) (key : string) : outcome json :=
  match v with
  | JDict items =>
      match dict_get items key with
      | Some x => Returned x
      | None => Raised (Exception "KeyError" key)
      end
  | _ => Raised (Exception "TypeError" "indices must be integers")
  end.

(** [v[0]] *)
Definition getitem_0 (v : json) : outcome json :=
  match v with
  | JList (x :: _) => Returned x
  | JList [] => Raised (Exception "IndexError" "list index out of range")
  | JStr (String c _) => Returned (JStr (String c EmptyString))
  | JStr EmptyString => Raised (Exception "IndexError" "string index out of range")
  | JDict _ => Raised (Exception "KeyError" "0")
  | _ => Raised (Exception "TypeError" "object is not subscriptable")
  end.

(** [v.replace('tcp://', '')] *)
Definition json_replace (v : json) : outcome string :=
  match v with
  | JStr s => Returned (PyStr.replace "tcp://" "" s)
  | _ => Raised (Exception "AttributeError" "replace")
  end.

(** [data['tunnels'][0]['public_url'].replace('tcp://', '')] *)
Definition extract_public_url (data : json) : M string :=
  tunnels <- lift (getitem_key data "tunnels") ;;
  first <- lift (getitem_0 tunnels) ;;
  url <- lift (getitem_key first "public_url") ;;
  lift (json_replace url).

Definition status_endpoint : string := "http://localhost:4040/api/tunnels".

(** One pass through the body of the [try] in [get_public_url]:
    [response] is what [requests.get(...).json()] yields this time. *)
Definition poll_once (response : outcome json) : M unit :=
  emit (HttpGet status_endpoint) ;;
  data <- lift response ;;
  public_url <- extract_public_url data ;;
  emit (address_notice public_url).

(** [get_public_url]: the [while True] loop, run against the successive
    answers of the status endpoint.  [Returned true] is the [break];
    [Returned false] means the listed answers ran out with the loop still
    polling. *)
Fixpoint get_public_url (responses : list (outcome json)) : M bool :=
  match responses with
  | [] => ret false
  | r :: responses' =>
      match poll_once r with
      | (t, Returned _) => (t, Returned true)
      | (t, Raised (Exception _ _)) =>
          let (t', o) := (emit (Sleep 1) ;; get_public_url responses') in
          ((t ++ t')%list, o)
      | (t, Raised KeyboardInterrupt) => (t, Raised KeyboardInterrupt)
      end
  end.

(** *** Playit.gg: reading the agent's output *)

(** The body of the [for] loop in [read_output]. *)
Definition read_output_line (line : string) : M unit :=
  if PyStr.contains "agent connected" (PyStr.lower line) then
    log_message "✅ Playit.gg agent connected successfully!" GREEN
  else if PyStr.contains "tunnel ready" (PyStr.lower line) then
    match PyStr.last_item (PyStr.split (PyStr.strip line)) with
    | Some address => emit (address_notice address)
    | None => raise (Exception "IndexError" "list index out of range")
    end
  else ret tt.

(** [read_output]: [for line in tunnel_process.stdout: ...] *)
Fixpoint read_output (lines : list string) : M unit :=
  match lines with
  | [] => ret tt
  | line :: lines' => read_output_line line ;; read_output lines'
  end.

(** ** Port release and the tunnel registry *)

Definition release_port (w : World) (port : Z) : M unit :=
  try_except_Exception
    (subprocess_run_shell w ("fuser -k " ++ PyStr.str port ++ "/tcp") ;;
     log_message_end ("🔓 Port " ++ PyStr.str port ++ " released successfully")
       GREEN (PyStr.nl ++ PyStr.nl))
    (fun msg =>
       log_message ("⚠️  Could not release port " ++ PyStr.str port ++ ": " ++ msg)
         YELLOW).

(** The two subclasses of [TunnelService], as values in the registry. *)
Inductive TunnelClass := NgrokTunnelClass | PlayitGGTunnelClass.

(** [cls(local_port)]: the constructor call with the remaining arguments
    at their defaults. *)
Definition instantiate (w : World) (cls : TunnelClass) (local_port : Z)
  : TunnelService :=
  match cls with
  | NgrokTunnelClass => NgrokTunnel_init w local_port default_auth_token
  | PlayitGGTunnelClass => PlayitGGTunnel local_port
  end.

Definition get_available_tunnel_services (w : World)
  : M (list (string * TunnelClass)) :=
  rc_ngrok <- subprocess_run w ["which"; "ngrok"] ;;
  let available_services :=
    if rc_ngrok =? 0 then [("Ngrok", NgrokTunnelClass)] else [] in
  rc_playit <- subprocess_run w ["which"; "playit"] ;;
  ret (if rc_playit =? 0
       then (available_services ++ [("Playit.gg", PlayitGGTunnelClass)])%list
       else available_services).

(** [next((service for name, service in l if name == answer), None)] *)
Fixpoint find_service (answer : string) (l : list (string * TunnelClass))
  : option TunnelClass :=
  match l with
  | [] => None
  | (name, service) :: l' =>
      if String.eqb name answer then Some service else find_service answer l'
  end.

Definition no_services_warning : list event :=
  [ Log "⚠️  No tunnel services found. Please install one of the following:"
      YELLOW PyStr.nl;
    Log "📦 Ngrok (https://ngrok.com/download)" BLUE PyStr.nl;
    Log "📦 Playit.gg (https://playit.gg)" BLUE PyStr.nl ].

Definition select_tunnel_service (w : World) : M (option TunnelService) :=
  available_services <- get_available_tunnel_services w ;;
  match available_services with
  | [] => (no_services_warning, Returned None)
  | _ :: _ =>
      emit (Prompt "Select tunnel service" (map fst available_services)) ;;
      match prompt_answer w with
      | None =>
          raise (Exception "TypeError" "'NoneType' object is not subscriptable")
      | Some answer =>
          ret (option_map (fun cls => instantiate w cls 25565)
                 (find_service answer available_services))
      end
  end.

(** ** The heap ceiling: [int(total_memory * 0.8)] *)

(** Python evaluates [total_memory * 0.8] in IEEE 754 binary64.  A finite
    double is written here as a pair [(m, e)] standing for [m * 2^e]. *)
Module PyFloat.

Definition float : Type := Z * Z.

(** [n / 2^s] rounded to the nearest integer, ties to even ([0 <= n],
    [0 < s]). *)
Definition rne (n s : Z) : Z :=
  let q := Z.shiftr n s in
  let r := Z.land n (Z.ones s) in
  let half := Z.shiftl 1 (s - 1) in
  if (half <? r) || ((r =? half) && Z.odd q) then q + 1 else q.

(** Rounding to the 53 bits of a binary64 significand. *)
Definition round53 (x : float) : float :=
  let (m, e) := x in
  let bits := Z.log2 (Z.abs m) + 1 in
  if bits <=? 53 then (m, e)
  else let s := bits - 53 in (Z.sgn m * rne (Z.abs m) s, e + s).

(** Beyond the largest finite double. *)
Definition overflows (x : float) : bool :=
  let (m, e) := x in
  if e <? 0 then false else Z.shiftl 1 1024 <=? Z.abs m * Z.shiftl 1 e.

(** The conversion of the [int] operand; [OverflowError] past the range
    of a double. *)
Definition of_int (n : Z) : outcome float :=
  let x := round53 (n, 0) in
  if overflows x
  then Raised (Exception "OverflowError" "int too large to convert to float")
  else Returned x.

Definition mul (x y : float) : float :=
  round53 (fst x * fst y, snd x + snd y).

(** The literal [0.8]: 0x3FE999999999999A. *)
Definition c0_8 : float := (7205759403792794, -53).

(** [int(x)]: truncation towards zero. *)
Definition to_int (x : float) : Z :=
  let (m, e) := x in
  if 0 <=? e then m * Z.shiftl 1 e else Z.quot m (Z.shiftl 1 (- e)).

End PyFloat.

(** [psutil.virtual_memory().total // (1024 ** 3)] *)
Definition total_memory (total_bytes : Z) : Z := total_bytes / 1024 ^ 3.

(** [int(total_memory * 0.8)] *)
Definition allocated_memory (total_memory : Z) : outcome Z :=
  match PyFloat.of_int total_memory with
  | Returned x => Returned (PyFloat.to_int (PyFloat.mul x PyFloat.c0_8))
  | Raised e => Raised e
  end.

Definition java_flags (allocated_memory : Z) : list string :=
  [ "-Xms1G"; "-Xmx" ++ PyStr.str allocated_memory ++ "G";
    "-XX:+UseG1GC";
    "-XX:+ParallelRefProcEnabled";
    "-XX:MaxGCPauseMillis=200";
    "-XX:+UnlockExperimentalVMOptions";
    "-XX:+DisableExplicitGC";
    "-XX:+AlwaysPreTouch";
    "-XX:G1NewSizePercent=30";
    "-XX:G1MaxNewSizePercent=40";
    "-XX:G1HeapRegionSize=8M";
    "-XX:G1ReservePercent=20";
    "-XX:G1HeapWastePercent=5";
    "-XX:G1MixedGCCountTarget=4";
    "-XX:InitiatingHeapOccupancyPercent=15";
    "-XX:G1MixedGCLiveThresholdPercent=90";
    "-XX:G1RSetUpdatingPauseTimePercent=5";
    "-XX:SurvivorRatio=32";
    "-XX:+PerfDisableSharedMem";
    "-XX:MaxTenuringThreshold=1" ].

Definition java_command (allocated_memory : Z) : list string :=
  (["java"] ++ java_flags allocated_memory ++ ["-jar"; "server.jar"; "nogui"])%list.

(** ** [run_server] *)

Definition ready_notice (server_name : string) : event :=
  Log ("✨ Server '" ++ server_name ++ "' is ready!") GREEN PyStr.nl.

(** The body of the [for] loop in [monitor_server]. *)
Definition monitor_server_line (server_name line : string) : M unit :=
  emit (Print (PyStr.strip line)) ;;
  if PyStr.contains "Done (" line then emit (ready_notice server_name)
  else ret tt.

(** [monitor_server]: [for line in server_process.stdout: ...] *)
Fixpoint monitor_server (server_name : string) (lines : list string) : M unit :=
  match lines with
  | [] => ret tt
  | line :: lines' =>
      monitor_server_line server_name line ;; monitor_server server_name lines'
  end.

(** The [finally] clause of [run_server]. *)
Definition stop_tunnel (tunnel_process : option proc) : M unit :=
  match tunnel_process with
  | Some p =>
      emit (Terminate p) ;; log_message "🔌 Tunnel service stopped" YELLOW
  | None => ret tt
  end.

(** The closing [try]/[except KeyboardInterrupt]/[finally] of [run_server]. *)
Definition wait_for_server (w : World) (server_process : proc)
  (tunnel_process : option proc) : M unit :=
  try_finally
    (try_except_KeyboardInterrupt
       (emit (Wait server_process) ;; lift (wait_result w) ;; ret tt)
       (log_message (PyStr.nl ++ "🛑 Stopping server...") YELLOW))
    (stop_tunnel tunnel_process).

(** [run_server] once [tunnel_process] is bound: the heap ceiling, the
    [java] command, the server process, its monitor thread and the wait. *)
Definition launch_server (w : World) (server_name : string)
  (tunnel_process : option proc) : M unit :=
  allocated <- lift (allocated_memory (total_memory (total w))) ;;
  log_message "⚙️  Starting Minecraft server with optimized settings..." CYAN ;;
  server_process <- subprocess_Popen w ServerProc (java_command allocated) ;;
  emit (ThreadStart "monitor_server") ;;
  wait_for_server w server_process tunnel_process.

(** [run_server] from the point where [tunnel_service] is bound:
    [tunnel_process = tunnel_service.start_tunnel() if tunnel_service else
    None], then the rest. *)
Definition run_server_with (w : World) (server_name : string)
  (tunnel_service : option TunnelService) : M unit :=
  tunnel_process <-
    match tunnel_service with
    | Some s => start_tunnel w s
    | None => ret None
    end ;;
  launch_server w server_name tunnel_process.

(** [os.path.join(BASE_DIR, server_name)] *)
Definition server_dir_of (w : World) (server_name : string) : string :=
  PyStr.path_join (BASE_DIR w) server_name.

Definition run_server (w : World) (server_name : string) : M unit :=
  let server_dir := server_dir_of w server_name in
  if negb (path_exists w server_dir) then
    log_message ("⚠️  Server directory '" ++ server_name ++ "' not found!") RED
  else
    emit (Chdir server_dir) ;; lift (chdir_result w server_dir) ;;
    release_port w 25565 ;;
    config <-
      try_except_Exception
        (lift (load_config w) ;; ret true)
        (fun msg =>
           log_message ("⚠️  Error reading server configuration: " ++ msg) RED ;;
           ret false) ;;
    if config : bool then
      tunnel_service <- select_tunnel_service w ;;
      run_server_with w server_name tunnel_service
    else ret tt.

(** ** Reading a trace *)

Definition is_terminate (p : proc) (ev : event) : bool :=
  match ev, p with
  | Terminate TunnelProc, TunnelProc | Terminate ServerProc, ServerProc => true
  | _, _ => false
  end.

Definition is_ready_notice (server_name : string) (ev : event) : bool :=
  match ev with
  | Log message GREEN _ =>
      String.eqb message ("✨ Server '" ++ server_name ++ "' is ready!")
  | _ => false
  end.

Definition is_address_notice (ev : event) : bool :=
  match ev with
  | Log message GREEN _ => prefix "✨ Server accessible at: " message
  | _ => false
  end.

Definition count (f : event -> bool) (t : list event) : nat :=
  length (filter f t).

(** The status answer of the specification:
    [{"tunnels":[{"public_url":"tcp://1.2.3.4:5555"}]}]. *)
Definition ngrok_status_example : json :=
  JDict [("tunnels", JList [JDict [("public_url", JStr "tcp://1.2.3.4:5555")]])].

(** An attempt of the polling loop that ends in the [except Exception]
    clause. *)
Definition poll_fails (r : outcome json) : Prop :=
  exists cls msg, result (poll_once r) = Raised (Exception cls msg).

(** What one failed attempt leaves in the trace. *)
Definition failed_attempt : list event := [HttpGet status_endpoint; Sleep 1].

Fixpoint has_nonspace (s : string) : bool :=
  match s with
  | EmptyString => false
  | String c s' => negb (PyStr.is_space c) || has_nonspace s'
  end.

(** The events that create, await or stop a child process or start a
    thread; everything else is logging, prompting and short-lived commands
    run to completion. *)
Definition process_event (ev : event) : bool :=
  match ev with
  | Popen _ _ | ThreadStart _ | Wait _ | Terminate _ => true
  | _ => false
  end.

(** A trace in which no process or thread is touched. *)
Definition quiet (t : list event) : Prop :=
  Forall (fun ev => process_event ev = false) t.

(** The events of the supervision phase: launching the server, waiting
    for a process, stopping a process. *)
Definition supervision_event (ev : event) : bool :=
  match ev with
  | Popen ServerProc _ | Wait _ | Terminate _ => true
  | _ => false
  end.

Definition starting_message : event :=
  Log "⚙️  Starting Minecraft server with optimized settings..." CYAN PyStr.nl.

Definition stopping_message : event :=
  Log (PyStr.nl ++ "🛑 Stopping server...") YELLOW PyStr.nl.

(** *** Sample worlds *)

(** Only Playit.gg is installed; the operator interrupts the wait. *)
Definition playit_world : World := {|
  BASE_DIR := "/workspaces/Minecraft-servers";
  path_exists := fun _ => true;
  chdir_result := fun _ => Returned tt;
  run_result := fun args =>
    match args with
    | ["which"; "ngrok"] => Returned 1
    | _ => Returned 0
    end;
  run_shell_result := fun _ => Returned 1;
  load_config := Returned tt;
  prompt_answer := Some "Playit.gg";
  getenv := fun _ => None;
  popen_result := fun _ => Returned tt;
  total := 16 * 1024 ^ 3;
  wait_result := Raised KeyboardInterrupt
|}.

(** No tunnel provider is installed; the server exits with status 1. *)
Definition bare_world : World := {|
  BASE_DIR := "/workspaces/Minecraft-servers";
  path_exists := fun _ => true;
  chdir_result := fun _ => Returned tt;
  run_result := fun _ => Returned 1;
  run_shell_result := fun _ => Returned 1;
  load_config := Returned tt;
  prompt_answer := None;
  getenv := fun _ => None;
  popen_result := fun _ => Returned tt;
  total := 10 * 1024 ^ 3;
  wait_result := Returned 1
|}.

(** As [bare_world], with [NGROK_AUTH_TOKEN] exported but empty. *)
Definition empty_token_world : World := {|
  BASE_DIR := BASE_DIR bare_world;
  path_exists := path_exists bare_world;
  chdir_result := chdir_result bare_world;
  run_result := run_result bare_world;
  run_shell_result := run_shell_result bare_world;
  load_config := load_config bare_world;
  prompt_answer := prompt_answer bare_world;
  getenv := fun name =>
    if String.eqb name "NGROK_AUTH_TOKEN" then Some "" else None;
  popen_result := popen_result bare_world;
  total := total bare_world;
  wait_result := wait_result bare_world
|}.

(** As [bare_world], with a [server_config.json] that is not valid JSON. *)
Definition broken_config_world : World := {|
  BASE_DIR := BASE_DIR bare_world;
  path_exists := path_exists bare_world;
  chdir_result := chdir_result bare_world;
  run_result := run_result bare_world;
  run_shell_result := run_shell_result bare_world;
  load_config :=
    Raised (Exception "JSONDecodeError" "Expecting value: line 1 column 1 (char 0)");
  prompt_answer := prompt_answer bare_world;
  getenv := getenv bare_world;
  popen_result := popen_result bare_world;
  total := total bare_world;
  wait_result := wait_result bare_world
|}.

(** *** More ways to read a trace *)

Definition is_print (ev : event) : bool :=
  match ev with Print _ => true | _ => false end.

Definition is_agent_notice (ev : event) : bool :=
  match ev with
  | Log message GREEN _ =>
      String.eqb message "✅ Playit.gg agent connected successfully!"
  | _ => false
  end.

Definition is_http_get (ev : event) : bool :=
  match ev with HttpGet _ => true | _ => false end.

Definition is_sleep (ev : event) : bool :=
  match ev with Sleep _ => true | _ => false end.

(** Some character of [s] is whitespace. *)
Fixpoint has_space (s : string) : bool :=
  match s with
  | EmptyString => false
  | String c s' => PyStr.is_space c || has_space s'
  end.

(** [tunnel_service.start_tunnel() if tunnel_service else None] *)
Definition start_selected (w : World) (tunnel_service : option TunnelService)
  : M (option proc) :=
  match tunnel_service with
  | Some s => start_tunnel w s
  | None => ret None
  end.

(** Playit.gg and Ngrok are installed and Playit.gg is chosen, but there is
    no [java] on the path. *)
Definition no_java_world : World := {|
  BASE_DIR := BASE_DIR playit_world;
  path_exists := path_exists playit_world;
  chdir_result := chdir_result playit_world;
  run_result := fun _ => Returned 0;
  run_shell_result := run_shell_result playit_world;
  load_config := load_config playit_world;
  prompt_answer := prompt_answer playit_world;
  getenv := getenv playit_world;
  popen_result := fun p =>
    match p with
    | TunnelProc => Returned tt
    | ServerProc =>
        Raised (Exception "FileNotFoundError"
                  "[Errno 2] No such file or directory: 'java'")
    end;
  total := total playit_world;
  wait_result := wait_result playit_world
|}.

Definition is_popen_server (ev : event) : bool :=
  match ev with Popen ServerProc _ => true | _ => false end.

(** An answer of the status endpoint that cannot yield an address yet: the
    request or its decoding raised, or the object has no ["tunnels"] entry,
    or its list of tunnels is empty. *)
Definition no_tunnel_yet (r : outcome json) : Prop :=
  (exists cls msg, r = Raised (Exception cls msg))
  \/ (exists items, r = Returned (JDict items)
                    /\ (dict_get items "tunnels" = None
                        \/ dict_get items "tunnels" = Some (JList []))).

(** The test of the [elif] branch of [read_output], as reached. *)
Definition publishes_address (line : string) : bool :=
  negb (PyStr.contains "agent connected" (PyStr.lower line))
  && PyStr.contains "tunnel ready" (PyStr.lower line).

Definition is_popen (ev : event) : bool :=
  match ev with Popen _ _ => true | _ => false end.

(** ** Version and download resolution *)

(** What [requests.get] hands back: the status code and what
    [response.json()] yields when called. *)
Record response := {
  status_code : Z;
  json_result : outcome json
}.

(** The remote services, as an oracle from URL to answer. *)
Record Web := {
  http_get : string -> outcome response
}.

Definition requests_get (web : Web) (url : string) : M response :=
  emit (HttpGet url) ;; lift (http_get web url).

(** What the code leaves to Python's built-ins on values decoded from JSON:
    whether a numeric literal denotes zero (its truth value), and [str(v)]
    as an f-string renders it, which for a string is the string itself. *)
Record PyBuiltins := {
  number_is_zero : string -> bool;
  format : json -> string;
  format_str : forall s, format (JStr s) = s
}.

(** [bool(v)] *)
Definition truthy (py : PyBuiltins) (v : json) : bool :=
  match v with
  | JNull => false
  | JBool b => b
  | JNum literal => negb (number_is_zero py literal)
  | JStr s => negb (PyStr.is_empty s)
  | JList items => match items with [] => false | _ :: _ => true end
  | JDict items => match items with [] => false | _ :: _ => true end
  end.

(** [v.get(key, default)] *)
Definition get_default (v : json) (key : string) (default : json)
  : outcome json :=
  match v with
  | JDict items =>
      Returned match dict_get items key with
               | Some x => x
               | None => default
               end
  | _ => Raised (Exception "AttributeError" "object has no attribute 'get'")
  end.

(** [for x in v]: the elements of a list, the keys of a dict, the
    characters of a string; nothing else is iterable. *)
Definition iterate (v : json) : outcome (list json) :=
  match v with
  | JList items => Returned items
  | JDict items => Returned (map (fun kv => JStr (fst kv)) items)
  | JStr s =>
      Returned (map (fun c => JStr (String c EmptyString))
                  (list_ascii_of_string s))
  | _ => Raised (Exception "TypeError" "object is not iterable")
  end.

(** [v[-1]] *)
Definition getitem_last (v : json) : outcome json :=
  match v with
  | JList items =>
      match PyStr.last_item items with
      | Some x => Returned x
      | None => Raised (Exception "IndexError" "list index out of range")
      end
  | JStr s =>
      match PyStr.last_item (list_ascii_of_string s) with
      | Some c => Returned (JStr (String c EmptyString))
      | None => Raised (Exception "IndexError" "string index out of range")
      end
  | JDict _ => Raised (Exception "KeyError" "-1")
  | _ => Raised (Exception "TypeError" "object is not subscriptable")
  end.

(** [v == s] for a string [s] *)
Definition json_eq_str (v : json) (s : string) : bool :=
  match v with
  | JStr t => String.eqb t s
  | _ => false
  end.

(** [s in l] for a string [s] *)
Definition str_in (s : string) (l : list json) : bool :=
  existsb (fun v => json_eq_str v s) l.

Definition manifest_url : string :=
  "https://launchermeta.mojang.com/mc/game/version_manifest.json".

Definition default_versions : list json :=
  map JStr ["1.20.4"; "1.20.3"; "1.20.2"; "1.19.4"; "1.18.2"; "1.18.1";
            "1.18"; "1.17.1"; "1.17"; "1.16.5"].

(** [[v["id"] for v in versions if v["type"] == "release"]] *)
Fixpoint release_ids (versions : list json) : outcome (list json) :=
  match versions with
  | [] => Returned []
  | v :: versions' =>
      match getitem_key v "type" with
      | Raised e => Raised e
      | Returned type =>
          if json_eq_str type "release" then
            match getitem_key v "id" with
            | Raised e => Raised e
            | Returned id =>
                match release_ids versions' with
                | Returned ids => Returned (id :: ids)
                | Raised e => Raised e
                end
            end
          else release_ids versions'
      end
  end.

(** The [try] block of [get_minecraft_versions]; [None] when it falls
    through without returning. *)
Definition fetch_release_versions (web : Web) : M (option (list json)) :=
  response <- requests_get web manifest_url ;;
  if status_code response =? 200 then
    data <- lift (json_result response) ;;
    versions <- lift (get_default data "versions" (JList [])) ;;
    items <- lift (iterate versions) ;;
    release_versions <- lift (release_ids items) ;;
    ret (Some (if str_in "1.18.2" release_versions then release_versions
               else (release_versions ++ [JStr "1.18.2"])%list))
  else ret None.

Definition get_minecraft_versions (web : Web) : M (list json) :=
  fetched <-
    try_except_Exception
      (fetch_release_versions web)
      (fun msg =>
         log_message ("Error fetching versions: " ++ msg) RED ;; ret None) ;;
  match fetched with
  | Some release_versions => ret release_versions
  | None => ret default_versions
  end.

Definition paper_versions_url (version : string) : string :=
  "https://papermc.io/api/v2/projects/paper/versions/" ++ version.

(** Python's [None] is the JSON [null]; the resolvers return it for "no
    URL". *)
Definition get_paper_download_url (py : PyBuiltins) (web : Web)
  (version : string) : M json :=
  response <- requests_get web (paper_versions_url version) ;;
  if negb (status_code response =? 200) then
    log_message ("Error al obtener versión PaperMC " ++ version ++ ".") RED ;;
    ret JNull
  else
    data <- lift (json_result response) ;;
    builds <- lift (get_default data "builds" (JList [])) ;;
    latest_build <-
      (if truthy py builds then lift (getitem_last builds) else ret JNull) ;;
    if negb (truthy py latest_build) then
      log_message ("No se encontraron builds para PaperMC " ++ version ++ ".")
        RED ;;
      ret JNull
    else
      ret (JStr (paper_versions_url version ++ "/builds/"
                 ++ format py latest_build ++ "/downloads/paper-" ++ version
                 ++ "-" ++ format py latest_build ++ ".jar")).

(** [next((v["url"] for v in versions if v["id"] == version), None)] *)
Fixpoint find_version_url (version : string) (versions : list json)
  : outcome json :=
  match versions with
  | [] => Returned JNull
  | v :: versions' =>
      match getitem_key v "id" with
      | Raised e => Raised e
      | Returned id =>
          if json_eq_str id version then getitem_key v "url"
          else find_version_url version versions'
      end
  end.

Definition get_vanilla_download_url (py : PyBuiltins) (web : Web)
  (version : string) : M json :=
  manifest_response <- requests_get web manifest_url ;;
  if negb (status_code manifest_response =? 200) then
    log_message "Error al obtener el manifiesto de versiones." RED ;;
    ret JNull
  else
    data <- lift (json_result manifest_response) ;;
    versions <- lift (getitem_key data "versions") ;;
    items <- lift (iterate versions) ;;
    url <- lift (find_version_url version items) ;;
    version_manifest <-
      (if truthy py url then
         r <- requests_get web (format py url) ;; lift (json_result r)
       else ret (JDict [])) ;;
    downloads <- lift (get_default version_manifest "downloads" (JDict [])) ;;
    server <- lift (get_default downloads "server" (JDict [])) ;;
    lift (get_default server "url" JNull).

(** [next((v["version"] for v in versions if v.get("stable")), None)] *)
Fixpoint first_stable_version (py : PyBuiltins) (versions : list json)
  : outcome json :=
  match versions with
  | [] => Returned JNull
  | v :: versions' =>
      match get_default v "stable" JNull with
      | Raised e => Raised e
      | Returned stable =>
          if truthy py stable then getitem_key v "version"
          else first_stable_version py versions'
      end
  end.

Definition get_fabric_version (py : PyBuiltins) (web : Web) (api_url : string)
  : M json :=
  response <- requests_get web api_url ;;
  if status_code response =? 200 then
    data <- lift (json_result response) ;;
    items <- lift (iterate data) ;;
    lift (first_stable_version py items)
  else
    log_message ("Error accediendo a la API: " ++ api_url ++ ".") RED ;;
    ret JNull.

Definition fabric_loader_url : string :=
  "https://meta.fabricmc.net/v2/versions/loader".

Definition fabric_installer_url : string :=
  "https://meta.fabricmc.net/v2/versions/installer".

Definition get_fabric_download_url (py : PyBuiltins) (web : Web)
  (version : string) : M json :=
  loader_version <- get_fabric_version py web fabric_loader_url ;;
  installer_version <- get_fabric_version py web fabric_installer_url ;;
  ret (if truthy py loader_version && truthy py installer_version
       then JStr (fabric_loader_url ++ "/" ++ version ++ "/"
                  ++ format py loader_version ++ "/"
                  ++ format py installer_version ++ "/server/jar")
       else JNull).

Definition get_server_download_url (py : PyBuiltins) (web : Web)
  (server_type version : string) : M json :=
  if String.eqb server_type "paper" then get_paper_download_url py web version
  else if String.eqb server_type "vanilla"
       then get_vanilla_download_url py web version
       else if String.eqb server_type "fabric"
            then get_fabric_download_url py web version
            else ret JNull.

(** *** Sample answers *)

(** Built-ins that agree with Python on strings and on integer literals
    without sign or leading zero, which is all the samples contain. *)
Definition sample_builtins : PyBuiltins := {|
  number_is_zero := fun literal => String.eqb literal "0";
  format := fun v =>
    match v with
    | JStr s => s
    | JNum literal => literal
    | _ => "?"
    end;
  format_str := fun s => eq_refl
|}.

Definition ok (body : json) : outcome response :=
  Returned {| status_code := 200; json_result := Returned body |}.

Definition not_found : outcome response :=
  Returned {| status_code := 404;
              json_result := Raised (Exception "JSONDecodeError" "Expecting value") |}.

Definition sample_entries : list json :=
  [JDict [("id", JStr "24w03a"); ("type", JStr "snapshot");
          ("url", JStr "https://piston-meta.mojang.com/24w03a.json")];
   JDict [("id", JStr "1.20.4"); ("type", JStr "release");
          ("url", JStr "https://piston-meta.mojang.com/1.20.4.json")];
   JDict [("id", JStr "1.20.3"); ("type", JStr "release");
          ("url", JStr "https://piston-meta.mojang.com/1.20.3.json")]].

Definition sample_manifest_items : list (string * json) :=
  [("latest", JDict [("release", JStr "1.20.4")]);
   ("versions", JList sample_entries)].

Definition sample_manifest : json := JDict sample_manifest_items.

Definition sample_web : Web := {|
  http_get := fun url =>
    if String.eqb url manifest_url then ok sample_manifest
    else if String.eqb url "https://piston-meta.mojang.com/1.20.4.json"
    then ok (JDict [("downloads",
                     JDict [("server",
                             JDict [("url", JStr "https://piston-data.mojang.com/server.jar")])])])
    else if String.eqb url (paper_versions_url "1.20.4")
    then ok (JDict [("version", JStr "1.20.4");
                    ("builds", JList [JNum "435"; JNum "436"; JNum "499"])])
    else if String.eqb url fabric_loader_url
    then ok (JList [JDict [("version", JStr "0.16.0-beta.1"); ("stable", JBool false)];
                    JDict [("version", JStr "0.15.11"); ("stable", JBool true)];
                    JDict [("version", JStr "0.15.10"); ("stable", JBool true)]])
    else if String.eqb url fabric_installer_url
    then ok (JList [JDict [("version", JStr "1.0.1"); ("stable", JBool true)]])
    else not_found
|}.


(** *** Well-formed answers *)

(** [v[key]] when it is there, for stating what an entry holds. *)
Definition field (v : json) (key : string) : json :=
  match getitem_key v key with
  | Returned x => x
  | Raised _ => JNull
  end.

Definition has_field (v : json) (key : string) : Prop :=
  exists x, getitem_key v key = Returned x.

(** An entry of the version manifest as the code reads it. *)
Definition manifest_entry (v : json) : Prop :=
  has_field v "type" /\ has_field v "id".

Definition is_release (v : json) : bool :=
  json_eq_str (field v "type") "release".

(** An entry of a Fabric version list that the search passes over. *)
Definition not_stable (py : PyBuiltins) (v : json) : Prop :=
  exists stable,
    get_default v "stable" JNull = Returned stable /\ truthy py stable = false.

(** An entry of the version manifest that is not the version looked for. *)
Definition other_version (version : string) (v : json) : Prop :=
  exists id, getitem_key v "id" = Returned id /\ json_eq_str id version = false.

Definition is_log (ev : event) : bool :=
  match ev with Log _ _ _ => true | _ => false end.

(** * Properties *)

(** ** The trace monad *)

Lemma trace_bind {A B} (c : M A) (k : A -> M B) :
  trace (bind c k) =
  (trace c ++ match result c with
              | Returned a => trace (k a)
              | Raised _ => []
              end)%list.
Proof.
  destruct c as [t [a | e]]; simpl.
  - destruct (k a); reflexivity.
  - now rewrite app_nil_r.
Qed.

Lemma result_bind {A B} (c : M A) (k : A -> M B) :
  result (bind c k) =
  match result c with
  | Returned a => result (k a)
  | Raised e => Raised e
  end.
Proof.
  destruct c as [t [a | e]]; simpl; [destruct (k a)|]; reflexivity.
Qed.

Lemma bind_returned {A B} (t : list event) (a : A) (k : A -> M B) :
  bind (t, Returned a) k = ((t ++ trace (k a))%list, result (k a)).
Proof. unfold bind. destruct (k a); reflexivity. Qed.

Lemma count_app f (t1 t2 : list event) :
  count f (t1 ++ t2) = (count f t1 + count f t2)%nat.
Proof. unfold count. now rewrite filter_app, length_app. Qed.

(** ** Strings *)

Example strip_example :
  PyStr.strip ("  tunnel ready 1.2.3.4:5555 " ++ PyStr.nl)
  = "tunnel ready 1.2.3.4:5555".
Proof. reflexivity. Qed.

Example split_example :
  PyStr.split "  tunnel  ready 1.2.3.4:5555 "
  = ["tunnel"; "ready"; "1.2.3.4:5555"].
Proof. reflexivity. Qed.

Example split_blank_example : PyStr.split "   " = [].
Proof. reflexivity. Qed.

Example replace_example :
  PyStr.replace "tcp://" "" "tcp://0.tcp.ngrok.io:12345" = "0.tcp.ngrok.io:12345".
Proof. reflexivity. Qed.

Example replace_no_overlap_example : PyStr.replace "aa" "b" "aaaaa" = "bba".
Proof. reflexivity. Qed.

Example lower_example : PyStr.lower "Tunnel READY" = "tunnel ready".
Proof. reflexivity. Qed.

Example path_join_example :
  PyStr.path_join "/workspaces/Minecraft-servers" "survival"
  = "/workspaces/Minecraft-servers/survival".
Proof. reflexivity. Qed.

Lemma is_space_lower_char c : PyStr.is_space c = true -> PyStr.lower_char c = c.
Proof.
  destruct c as [[] [] [] [] [] [] [] []]; cbv; intros H;
    solve [reflexivity | discriminate H].
Qed.

Lemma prefix_lower_nonspace c0 n s :
  PyStr.is_space c0 = false ->
  prefix (String c0 n) (PyStr.lower s) = true -> has_nonspace s = true.
Proof.
  intros Hc0 H. destruct s as [| c s']; simpl in H; [discriminate|].
  destruct (ascii_dec c0 (PyStr.lower_char c)) as [E | E]; [| discriminate].
  simpl. destruct (PyStr.is_space c) eqn:Hc; [| reflexivity].
  rewrite (is_space_lower_char _ Hc) in E. congruence.
Qed.

Lemma contains_lower_nonspace c0 n s :
  PyStr.is_space c0 = false ->
  PyStr.contains (String c0 n) (PyStr.lower s) = true -> has_nonspace s = true.
Proof.
  intros Hc0. induction s as [| c s' IH]; intros H.
  - discriminate H.
  - cbn [PyStr.lower PyStr.contains] in H.
    apply orb_true_iff in H. destruct H as [H | H].
    + exact (prefix_lower_nonspace c0 n (String c s') Hc0 H).
    + simpl. rewrite (IH H). apply orb_true_r.
Qed.

Lemma has_nonspace_lstrip s :
  has_nonspace s = true -> has_nonspace (PyStr.lstrip s) = true.
Proof.
  induction s as [| c s' IH]; simpl; intros H; [discriminate|].
  destruct (PyStr.is_space c) eqn:Hc; simpl in *.
  - auto.
  - now rewrite Hc.
Qed.

Lemma has_nonspace_rstrip s :
  has_nonspace s = true -> has_nonspace (PyStr.rstrip s) = true.
Proof.
  induction s as [| c s' IH]; simpl; intros H; [discriminate|].
  destruct (PyStr.is_space c) eqn:Hc; simpl in *.
  - specialize (IH H).
    destruct (PyStr.rstrip s') as [| c' r]; [discriminate IH|].
    simpl. rewrite Hc. exact IH.
  - now rewrite Hc.
Qed.

Lemma split_from_pending cur s :
  PyStr.is_empty cur = false -> PyStr.split_from cur s <> [].
Proof.
  revert cur. induction s as [| c s' IH]; simpl; intros cur Hcur.
  - rewrite Hcur. discriminate.
  - destruct (PyStr.is_space c).
    + rewrite Hcur. discriminate.
    + apply IH. destruct cur; reflexivity.
Qed.

Lemma split_from_nonspace cur s :
  has_nonspace s = true -> PyStr.split_from cur s <> [].
Proof.
  revert cur. induction s as [| c s' IH]; simpl; intros cur H; [discriminate|].
  destruct (PyStr.is_space c); simpl in H.
  - destruct (PyStr.is_empty cur); [apply IH; exact H | discriminate].
  - apply split_from_pending. destruct cur; reflexivity.
Qed.

Lemma last_item_nonempty {A} (l : list A) :
  l <> [] -> exists x, PyStr.last_item l = Some x.
Proof.
  induction l as [| a l IH]; intros H; [congruence|].
  destruct l as [| b l]; [now exists a|].
  apply IH. discriminate.
Qed.

(** A line that mentions a word starting with a visible character has a
    last token once stripped and split. *)
Lemma last_token_exists c0 n line :
  PyStr.is_space c0 = false ->
  PyStr.contains (String c0 n) (PyStr.lower line) = true ->
  exists address,
    PyStr.last_item (PyStr.split (PyStr.strip line)) = Some address.
Proof.
  intros Hc0 H. apply last_item_nonempty, split_from_nonspace.
  unfold PyStr.strip.
  apply has_nonspace_rstrip, has_nonspace_lstrip.
  exact (contains_lower_nonspace c0 n line Hc0 H).
Qed.

(** ** Playit.gg output reader *)

(** C9.  A Playit.gg line whose lower-cased text contains both "agent
    connected" and "tunnel ready" only logs the agent-connected notice: the
    tunnel-ready test sits in the [elif] and is never reached, so no address
    is published from that line. *)
Theorem read_output_agent_connected_wins (line : string) :
  PyStr.contains "agent connected" (PyStr.lower line) = true ->
  PyStr.contains "tunnel ready" (PyStr.lower line) = true ->
  read_output_line line =
    ([Log "✅ Playit.gg agent connected successfully!" GREEN PyStr.nl],
     Returned tt)
  /\ count is_address_notice (trace (read_output_line line)) = 0%nat.
Proof.
  intros Hagent _. unfold read_output_line. rewrite Hagent. split; reflexivity.
Qed.

Lemma read_output_agent_connected_wins_witness :
  let line := "Agent connected, tunnel ready 1.2.3.4:5555" in
  read_output_line line =
    ([Log "✅ Playit.gg agent connected successfully!" GREEN PyStr.nl],
     Returned tt)
  /\ count is_address_notice (trace (read_output_line line)) = 0%nat.
Proof.
  apply (read_output_agent_connected_wins
           "Agent connected, tunnel ready 1.2.3.4:5555"); reflexivity.
Defined.

(** C5, as stated, fails: the line below contains "tunnel ready", yet the
    reader publishes no address from it; all it logs is the agent-connected
    notice. *)
Lemma read_output_tunnel_ready_not_published :
  let line := "agent connected; tunnel ready 1.2.3.4:5555" in
  PyStr.contains "tunnel ready" line = true
  /\ PyStr.last_item (PyStr.split (PyStr.strip line)) = Some "1.2.3.4:5555"
  /\ trace (read_output_line line) =
       [Log "✅ Playit.gg agent connected successfully!" GREEN PyStr.nl]
  /\ trace (read_output_line line) <>
       [Log "✨ Server accessible at: 1.2.3.4:5555" GREEN PyStr.nl]
  /\ count is_address_notice (trace (read_output_line line)) = 0%nat.
Proof.
  cbv zeta. repeat split; try reflexivity. vm_compute. discriminate.
Qed.

(** C5, amended.  For every Playit.gg line whose lower-cased text contains
    "tunnel ready" and does not contain "agent connected", the stripped
    line has a last whitespace-delimited token and the reader publishes
    exactly that token -- it logs "✨ Server accessible at: " followed by
    the token, in green, and nothing else -- without raising; for
    "tunnel ready 1.2.3.4:5555" the line logged is
    "✨ Server accessible at: 1.2.3.4:5555". *)
Theorem read_output_publishes_last_token :
  (forall line,
      PyStr.contains "tunnel ready" (PyStr.lower line) = true ->
      PyStr.contains "agent connected" (PyStr.lower line) = false ->
      exists address,
        PyStr.last_item (PyStr.split (PyStr.strip line)) = Some address
        /\ read_output_line line =
             ([Log ("✨ Server accessible at: " ++ address) GREEN PyStr.nl],
              Returned tt))
  /\ read_output_line "tunnel ready 1.2.3.4:5555" =
       ([Log "✨ Server accessible at: 1.2.3.4:5555" GREEN PyStr.nl],
        Returned tt).
Proof.
  split; [| reflexivity].
  intros line Hready Hagent.
  destruct (last_token_exists "t" "unnel ready" line eq_refl Hready)
    as [address Haddr].
  exists address. split; [exact Haddr|].
  unfold read_output_line. now rewrite Hagent, Hready, Haddr.
Qed.

Lemma read_output_publishes_last_token_witness :
  exists address,
    PyStr.last_item
      (PyStr.split (PyStr.strip ("  Tunnel Ready at 1.2.3.4:5555" ++ PyStr.nl)))
      = Some address
    /\ read_output_line ("  Tunnel Ready at 1.2.3.4:5555" ++ PyStr.nl) =
         ([Log ("✨ Server accessible at: " ++ address) GREEN PyStr.nl],
          Returned tt).
Proof.
  apply (proj1 read_output_publishes_last_token
           ("  Tunnel Ready at 1.2.3.4:5555" ++ PyStr.nl)); reflexivity.
Defined.

(** ** Server output monitor *)

Lemma monitor_server_returns server_name lines :
  result (monitor_server server_name lines) = Returned tt.
Proof.
  induction lines as [| line lines IH]; [reflexivity|].
  cbn [monitor_server]. rewrite result_bind.
  unfold monitor_server_line; simpl.
  destruct (PyStr.contains "Done (" line); simpl; exact IH.
Qed.

Lemma monitor_server_trace server_name line lines :
  trace (monitor_server server_name (line :: lines)) =
  (Print (PyStr.strip line)
   :: (if PyStr.contains "Done (" line then [ready_notice server_name] else [])
   ++ trace (monitor_server server_name lines))%list.
Proof.
  cbn [monitor_server]. rewrite trace_bind.
  unfold monitor_server_line; simpl.
  destruct (PyStr.contains "Done (" line); reflexivity.
Qed.

Lemma is_ready_notice_ready server_name :
  is_ready_notice server_name (ready_notice server_name) = true.
Proof. unfold is_ready_notice, ready_notice. apply String.eqb_refl. Qed.

(** C2, as stated, fails: the source keeps no readiness flag, and a second
    line with "Done (" signals readiness a second time. *)
Lemma monitor_server_signals_twice :
  let lines := ["[Server thread/INFO]: Done (3.2s)! For help, type help";
                "[Server thread/INFO]: Done (0.1s)! Reload complete"] in
  (exists line, In line lines /\ PyStr.contains "Done (" line = true)
  /\ count (is_ready_notice "world") (trace (monitor_server "world" lines))
     = 2%nat
  /\ count (is_ready_notice "world") (trace (monitor_server "world" lines))
     <> 1%nat.
Proof.
  cbv zeta. split; [| split].
  - eexists. split; [left; reflexivity | reflexivity].
  - reflexivity.
  - vm_compute. discriminate.
Qed.

(** C2, amended.  The monitor signals readiness once for every line of the
    server output that contains "Done (": the number of ready notices is
    the number of such lines, so it is at least one as soon as one line
    matches, and the monitor runs to the end of the stream without
    raising. *)
Theorem monitor_server_signals_each_done_line
  (server_name : string) (lines : list string) :
  count (is_ready_notice server_name) (trace (monitor_server server_name lines))
  = length (filter (PyStr.contains "Done (") lines)
  /\ result (monitor_server server_name lines) = Returned tt.
Proof.
  split; [| apply monitor_server_returns].
  induction lines as [| line lines IH]; [reflexivity|].
  rewrite monitor_server_trace.
  change (Print (PyStr.strip line) :: ?t)%list
    with ([Print (PyStr.strip line)] ++ t)%list.
  rewrite !count_app, IH. cbn [filter].
  destruct (PyStr.contains "Done (" line); cbn [length].
  - unfold count at 2. cbn [filter]. now rewrite is_ready_notice_ready.
  - reflexivity.
Qed.

(** ** Ngrok status polling *)

Lemma poll_once_example :
  poll_once (Returned ngrok_status_example) =
  ([HttpGet status_endpoint; address_notice "1.2.3.4:5555"], Returned tt).
Proof. reflexivity. Qed.

Lemma extract_public_url_silent data : trace (extract_public_url data) = [].
Proof.
  unfold extract_public_url.
  destruct (getitem_key data "tunnels") as [v1 | ?]; [| reflexivity].
  cbn. destruct (getitem_0 v1) as [v2 | ?]; [| reflexivity].
  cbn. destruct (getitem_key v2 "public_url") as [v3 | ?]; [| reflexivity].
  cbn. destruct (json_replace v3); reflexivity.
Qed.

Lemma poll_once_trace_of_failure r :
  poll_fails r -> trace (poll_once r) = [HttpGet status_endpoint].
Proof.
  intros (cls & msg & H). unfold poll_once in *.
  destruct r as [data | e]; [| reflexivity].
  pose proof (extract_public_url_silent data) as Ht.
  rewrite trace_bind, result_bind in *. cbn [emit result trace fst snd] in *.
  rewrite trace_bind, result_bind in *. cbn [lift result trace fst snd] in *.
  rewrite trace_bind, result_bind in *.
  destruct (extract_public_url data) as [t [url | e]].
  - discriminate H.
  - cbn in Ht |- *. now subst t.
Qed.

Lemma get_public_url_retries r responses :
  poll_fails r ->
  get_public_url (r :: responses) =
  ((failed_attempt ++ trace (get_public_url responses))%list,
   result (get_public_url responses)).
Proof.
  intros Hr. pose proof (poll_once_trace_of_failure r Hr) as Ht.
  destruct Hr as (cls & msg & Hres).
  cbn [get_public_url].
  destruct (poll_once r) as [t o]. cbn in Ht, Hres. subst t o.
  destruct (get_public_url responses) as [t' o']. reflexivity.
Qed.

(** C4.  When the status endpoint answers
    [{"tunnels":[{"public_url":"tcp://1.2.3.4:5555"}]}] -- at once, or after
    any number of attempts that failed and were retried a second later --
    the polling task publishes "1.2.3.4:5555", the first tunnel's public URL
    without its "tcp://" scheme: it logs
    "✨ Server accessible at: 1.2.3.4:5555" in green, and leaves the loop.
    Nothing is requested after the notice, whatever the endpoint would have
    answered next. *)
Theorem get_public_url_publishes_example
  (failures rest : list (outcome json)) :
  Forall poll_fails failures ->
  get_public_url
    (failures
     ++ Returned
          (JDict [("tunnels",
                   JList [JDict [("public_url", JStr "tcp://1.2.3.4:5555")]])])
     :: rest) =
  ((concat
      (map (fun _ => [HttpGet "http://localhost:4040/api/tunnels"; Sleep 1])
           failures)
    ++ [HttpGet "http://localhost:4040/api/tunnels";
        Log "✨ Server accessible at: 1.2.3.4:5555" GREEN PyStr.nl])%list,
   Returned true).
Proof.
  induction 1 as [| r failures Hr _ IH].
  - reflexivity.
  - change ((r :: failures) ++ ?l)%list with (r :: (failures ++ l))%list.
    rewrite (get_public_url_retries _ _ Hr), IH. reflexivity.
Qed.

Lemma get_public_url_publishes_example_witness :
  get_public_url
    ([Raised (Exception "ConnectionError" "connection refused");
      Returned (JDict [("tunnels", JList [])])]
     ++ Returned
          (JDict [("tunnels",
                   JList [JDict [("public_url", JStr "tcp://1.2.3.4:5555")]])])
     :: [Returned JNull]) =
  ([HttpGet "http://localhost:4040/api/tunnels"; Sleep 1;
    HttpGet "http://localhost:4040/api/tunnels"; Sleep 1;
    HttpGet "http://localhost:4040/api/tunnels";
    Log "✨ Server accessible at: 1.2.3.4:5555" GREEN PyStr.nl],
   Returned true).
Proof.
  apply (get_public_url_publishes_example
           [Raised (Exception "ConnectionError" "connection refused");
            Returned (JDict [("tunnels", JList [])])]
           [Returned JNull]).
  repeat constructor; do 2 eexists; reflexivity.
Defined.

(** ** The heap ceiling *)

Example allocated_memory_negative_example : allocated_memory (-7) = Returned (-5).
Proof. reflexivity. Qed.

Example allocated_memory_rounds_operand_example :
  allocated_memory (2 ^ 60 + 1) = Returned 922337203685477632.
Proof. reflexivity. Qed.

Example allocated_memory_overflow_example :
  allocated_memory (2 ^ 1024) =
  Raised (Exception "OverflowError" "int too large to convert to float").
Proof. reflexivity. Qed.

Lemma rne_cases n s :
  0 <= n -> 0 < s ->
  PyFloat.rne n s = n / 2 ^ s
  \/ (PyFloat.rne n s = n / 2 ^ s + 1 /\ 2 ^ (s - 1) <= n mod 2 ^ s).
Proof.
  intros Hn Hs. unfold PyFloat.rne.
  rewrite Z.shiftr_div_pow2, Z.land_ones, Z.shiftl_1_l by lia.
  destruct ((2 ^ (s - 1) <? n mod 2 ^ s)
            || ((n mod 2 ^ s =? 2 ^ (s - 1)) && Z.odd (n / 2 ^ s))) eqn:E.
  - right. split; [reflexivity|].
    apply orb_true_iff in E. destruct E as [E | E].
    + apply Z.ltb_lt in E. lia.
    + apply andb_true_iff in E. destruct E as [E _]. apply Z.eqb_eq in E. lia.
  - now left.
Qed.

(** The literal [0.8] is a normal binary64 number within half a unit in the
    last place of 4/5. *)
Lemma c0_8_is_nearest_double :
  2 ^ 52 <= fst PyFloat.c0_8 < 2 ^ 53
  /\ 2 * Z.abs (5 * fst PyFloat.c0_8 - 4 * 2 ^ 53) < 5.
Proof. cbv [fst PyFloat.c0_8]. lia. Qed.

(** Dividing by a power of two that splits [2^53]. *)
Lemma div_between q k S T :
  0 < S -> 0 < T -> 0 <= k ->
  S * (T * k) < S * (q + 1) -> S * q < S * (T * (k + 1)) ->
  q / T = k.
Proof.
  intros HS HT Hk Hlo Hhi.
  apply Z.mul_lt_mono_pos_l in Hlo; [| exact HS].
  apply Z.mul_lt_mono_pos_l in Hhi; [| exact HS].
  symmetry. apply Z.div_unique_pos with (r := q - T * k); lia.
Qed.

Lemma to_int_round53_scaled g :
  0 <= g < 2 ^ 34 ->
  PyFloat.to_int (PyFloat.round53 (g * fst PyFloat.c0_8, -53)) = g * 4 / 5.
Proof.
  intros Hg.
  change (2 ^ 34) with 17179869184 in Hg.
  change (fst PyFloat.c0_8) with 7205759403792794.
  set (N := g * 7205759403792794).
  set (k := g * 4 / 5).
  assert (Hk : 5 * k <= g * 4 < 5 * k + 5).
  { subst k. pose proof (Z.div_mod (g * 4) 5 ltac:(lia)).
    pose proof (Z.mod_pos_bound (g * 4) 5 ltac:(lia)). lia. }
  assert (HN : 0 <= N) by (subst N; lia).
  assert (Hlo : 9007199254740992 * k <= N) by (subst N; lia).
  assert (Hhi : 5 * N + 5 * 8589934592 < 5 * (9007199254740992 * (k + 1)))
    by (subst N; lia).
  assert (HNlt : N < 154742504910672534362390528) by (subst N; lia).
  clearbody N k.
  unfold PyFloat.round53. rewrite (Z.abs_eq N) by exact HN.
  destruct (Z.log2 N + 1 <=? 53) eqn:Hbits.
  - unfold PyFloat.to_int.
    change (0 <=? -53) with false. cbv iota.
    change (Z.shiftl 1 (- -53)) with 9007199254740992.
    rewrite Z.quot_div_nonneg by lia.
    symmetry. apply Z.div_unique_pos with (r := N - 9007199254740992 * k); lia.
  - apply Z.leb_gt in Hbits.
    assert (HNpos : 0 < N).
    { destruct (Z.eq_dec N 0) as [E | E]; [| lia].
      rewrite E in Hbits. change (Z.log2 0) with 0 in Hbits. lia. }
    assert (Hlog : Z.log2 N < 87).
    { apply Z.log2_lt_pow2; [exact HNpos|].
      change (2 ^ 87) with 154742504910672534362390528. exact HNlt. }
    set (s := Z.log2 N + 1 - 53) in *.
    assert (Hs : 0 < s <= 34) by lia.
    clearbody s.
    rewrite (Z.sgn_pos N) by exact HNpos. rewrite Z.mul_1_l.
    unfold PyFloat.to_int.
    destruct (0 <=? -53 + s) eqn:He; [apply Z.leb_le in He; lia|].
    rewrite Z.shiftl_1_l.
    replace (- (-53 + s)) with (53 - s) by lia.
    assert (HS : 0 < 2 ^ s) by (apply Z.pow_pos_nonneg; lia).
    assert (HT : 0 < 2 ^ (53 - s)) by (apply Z.pow_pos_nonneg; lia).
    assert (HST : 2 ^ s * 2 ^ (53 - s) = 9007199254740992).
    { rewrite <- Z.pow_add_r by lia.
      replace (s + (53 - s)) with 53 by lia. reflexivity. }
    assert (Hhalf : 2 * 2 ^ (s - 1) = 2 ^ s).
    { rewrite <- Z.pow_succ_r by lia. f_equal. lia. }
    assert (Hhalf33 : 2 ^ (s - 1) <= 8589934592).
    { change 8589934592 with (2 ^ 33). apply Z.pow_le_mono_r; lia. }
    pose proof (Z.div_mod N (2 ^ s) ltac:(lia)) as Hdm.
    pose proof (Z.mod_pos_bound N (2 ^ s) HS) as Hmod.
    assert (Hq : 0 <= N / 2 ^ s) by (apply Z.div_pos; lia).
    pose proof (rne_cases N s HN ltac:(lia)) as Hrne.
    assert (Hr : 0 <= PyFloat.rne N s) by (destruct Hrne as [-> | [-> _]]; lia).
    rewrite Z.quot_div_nonneg by lia.
    apply div_between with (S := 2 ^ s); try lia.
    + rewrite Z.mul_assoc, HST. destruct Hrne as [-> | [-> _]]; lia.
    + rewrite (Z.mul_assoc (2 ^ s)), HST. destruct Hrne as [-> | [-> Hge]]; lia.
Qed.

Lemma of_int_exact g : 0 <= g < 2 ^ 34 -> PyFloat.of_int g = Returned (g, 0).
Proof.
  intros Hg. change (2 ^ 34) with 17179869184 in Hg.
  unfold PyFloat.of_int, PyFloat.round53.
  assert (Hbits : (Z.log2 (Z.abs g) + 1 <=? 53) = true).
  { apply Z.leb_le. rewrite Z.abs_eq by lia.
    destruct (Z.eq_dec g 0) as [-> | Hg0]; [cbn; lia|].
    assert (Z.log2 g < 34); [| lia].
    apply Z.log2_lt_pow2; [lia|]. change (2 ^ 34) with 17179869184. lia. }
  rewrite Hbits. unfold PyFloat.overflows.
  change (0 <? 0) with false. cbv iota.
  change (Z.shiftl 1 0) with 1. rewrite Z.mul_1_r, Z.abs_eq by lia.
  destruct (Z.shiftl 1 1024 <=? g) eqn:E; [| reflexivity].
  apply Z.leb_le in E.
  assert (17179869184 < Z.shiftl 1 1024) by reflexivity. lia.
Qed.

Lemma allocated_memory_floor g :
  0 <= g < 2 ^ 34 -> allocated_memory g = Returned (g * 4 / 5).
Proof.
  intros Hg. unfold allocated_memory. rewrite (of_int_exact g Hg).
  unfold PyFloat.mul. cbn [fst snd].
  change (0 + snd PyFloat.c0_8) with (-53).
  now rewrite to_int_round53_scaled.
Qed.

Lemma total_memory_range total_bytes :
  0 <= total_bytes < 2 ^ 64 -> 0 <= total_memory total_bytes < 2 ^ 34.
Proof.
  intros H. unfold total_memory.
  change (1024 ^ 3) with 1073741824.
  change (2 ^ 64) with (1073741824 * 17179869184) in H.
  change (2 ^ 34) with 17179869184.
  split.
  - apply Z.div_pos; lia.
  - apply Z.div_lt_upper_bound; lia.
Qed.

(** ** [run_server]: how a run unfolds *)

Ltac quiet_events :=
  unfold quiet; repeat (apply Forall_cons; [reflexivity|]); apply Forall_nil.

Lemma quiet_app t1 t2 : quiet t1 -> quiet t2 -> quiet (t1 ++ t2).
Proof. unfold quiet. intros H1 H2. apply Forall_app. now split. Qed.

Lemma quiet_not_In t ev : quiet t -> process_event ev = true -> ~ In ev t.
Proof.
  unfold quiet. intros Hq Hev Hin.
  rewrite Forall_forall in Hq. specialize (Hq ev Hin). congruence.
Qed.

Lemma quiet_count_terminate t p : quiet t -> count (is_terminate p) t = 0%nat.
Proof.
  unfold quiet, count. induction 1 as [| ev t Hev _ IH]; [reflexivity|].
  cbn [filter]. destruct ev; try discriminate Hev; cbn; exact IH.
Qed.

Lemma release_port_quiet w port : quiet (trace (release_port w port)).
Proof.
  unfold release_port, subprocess_run_shell.
  destruct (run_shell_result w _) as [rc | [| cls msg]]; cbn; quiet_events.
Qed.

Lemma get_available_tunnel_services_quiet w :
  quiet (trace (get_available_tunnel_services w)).
Proof.
  unfold get_available_tunnel_services, subprocess_run.
  destruct (run_result w ["which"; "ngrok"]) as [rc1 | e1]; cbn;
    [| quiet_events].
  destruct (run_result w ["which"; "playit"]) as [rc2 | e2]; cbn; quiet_events.
Qed.

Lemma select_tunnel_service_quiet w : quiet (trace (select_tunnel_service w)).
Proof.
  unfold select_tunnel_service. rewrite trace_bind.
  apply quiet_app; [apply get_available_tunnel_services_quiet|].
  destruct (result (get_available_tunnel_services w)) as [[| a l] | e];
    [quiet_events | | quiet_events].
  rewrite trace_bind. cbn [emit trace result fst snd].
  apply quiet_app; [quiet_events|].
  destruct (prompt_answer w); quiet_events.
Qed.

Lemma wait_for_server_unfold w sp tp :
  wait_for_server w sp tp =
  ((Wait sp
    :: match wait_result w with
       | Raised KeyboardInterrupt => [stopping_message]
       | _ => []
       end
    ++ trace (stop_tunnel tp))%list,
   match wait_result w with
   | Raised (Exception cls msg) => Raised (Exception cls msg)
   | _ => Returned tt
   end).
Proof.
  unfold wait_for_server.
  destruct (wait_result w) as [rc | [| cls msg]], tp as [p |]; reflexivity.
Qed.

Lemma launch_server_unfold w server_name tp :
  launch_server w server_name tp =
  match allocated_memory (total_memory (total w)) with
  | Raised e => ([], Raised e)
  | Returned allocated =>
      match popen_result w ServerProc with
      | Raised e =>
          ([starting_message; Popen ServerProc (java_command allocated)],
           Raised e)
      | Returned _ =>
          ((starting_message
            :: Popen ServerProc (java_command allocated)
            :: ThreadStart "monitor_server"
            :: trace (wait_for_server w ServerProc tp))%list,
           result (wait_for_server w ServerProc tp))
      end
  end.
Proof.
  unfold launch_server, subprocess_Popen.
  destruct (allocated_memory (total_memory (total w))) as [a | e];
    [| reflexivity].
  destruct (popen_result w ServerProc) as [[] | e]; [| reflexivity].
  cbn. rewrite !wait_for_server_unfold. reflexivity.
Qed.

(** ** The heap ceiling in the [java] command *)

Lemma allocated_memory_of_total total_bytes :
  0 <= total_bytes < 2 ^ 64 ->
  allocated_memory (total_memory total_bytes)
  = Returned (4 * (total_bytes / 1024 ^ 3) / 5).
Proof.
  intros H.
  rewrite (allocated_memory_floor _ (total_memory_range total_bytes H)).
  unfold total_memory. f_equal. f_equal. lia.
Qed.

Lemma java_command_spelled allocated_memory :
  java_command allocated_memory =
  [ "java"; "-Xms1G"; "-Xmx" ++ PyStr.str allocated_memory ++ "G";
    "-XX:+UseG1GC"; "-XX:+ParallelRefProcEnabled"; "-XX:MaxGCPauseMillis=200";
    "-XX:+UnlockExperimentalVMOptions"; "-XX:+DisableExplicitGC";
    "-XX:+AlwaysPreTouch"; "-XX:G1NewSizePercent=30";
    "-XX:G1MaxNewSizePercent=40"; "-XX:G1HeapRegionSize=8M";
    "-XX:G1ReservePercent=20"; "-XX:G1HeapWastePercent=5";
    "-XX:G1MixedGCCountTarget=4"; "-XX:InitiatingHeapOccupancyPercent=15";
    "-XX:G1MixedGCLiveThresholdPercent=90";
    "-XX:G1RSetUpdatingPauseTimePercent=5"; "-XX:SurvivorRatio=32";
    "-XX:+PerfDisableSharedMem"; "-XX:MaxTenuringThreshold=1";
    "-jar"; "server.jar"; "nogui" ].
Proof. reflexivity. Qed.

(** C3, as stated, fails: on a host that reports 2.5 GiB the flag is
    [-Xmx1G], while 80% of the memory reported, rounded down to whole
    gigabytes, is 2; on a host that reports 7.75 GiB the ceiling is 5, not
    6.  The total is cut down to whole gigabytes before the 80% is taken. *)
Lemma allocated_memory_below_80_percent_of_total :
  let total_bytes := 2684354560 in
  0 <= total_bytes < 2 ^ 64
  /\ 2 * total_bytes = 5 * 1024 ^ 3
  /\ allocated_memory (total_memory total_bytes) = Returned 1
  /\ nth 1 (java_flags 1) "" = "-Xmx1G"
  /\ 4 * total_bytes / (5 * 1024 ^ 3) = 2
  /\ allocated_memory (total_memory total_bytes)
     <> Returned (4 * total_bytes / (5 * 1024 ^ 3))
  /\ allocated_memory (total_memory 8321499136) = Returned 5
  /\ 4 * 8321499136 / (5 * 1024 ^ 3) = 6.
Proof.
  cbv zeta. repeat split; try reflexivity; try discriminate.
Qed.

(** C3, amended.  A reported total of 16 GB gives the flag [-Xmx12G] and a
    total of 10 GB gives [-Xmx8G].  In general, for any byte count a 64-bit
    counter can hold, the total is first cut down to whole gigabytes
    (of [1024 ^ 3] bytes), and the ceiling put in the [-Xmx] flag is 80% of
    that whole number rounded down: the double-precision product
    [total_memory * 0.8], truncated, is exactly the integer quotient
    [4 * (total_bytes / 1024 ^ 3) / 5].  It never exceeds 80% of the memory
    reported, and it is the number the [java] command carries in its third
    word, whichever tunnel handle the launch is given. *)
Theorem allocated_memory_is_80_percent_of_whole_gigabytes :
  allocated_memory (total_memory (16 * 1024 ^ 3)) = Returned 12
  /\ allocated_memory (total_memory (10 * 1024 ^ 3)) = Returned 8
  /\ nth 1 (java_flags 12) "" = "-Xmx12G"
  /\ nth 1 (java_flags 8) "" = "-Xmx8G"
  /\ (forall total_bytes,
        0 <= total_bytes < 2 ^ 64 ->
        exists allocated,
          allocated_memory (total_memory total_bytes) = Returned allocated
          /\ allocated = 4 * (total_bytes / 1024 ^ 3) / 5
          /\ 5 * allocated <= 4 * (total_bytes / 1024 ^ 3) < 5 * allocated + 5
          /\ 5 * (allocated * 1024 ^ 3) <= 4 * total_bytes
          /\ nth 1 (java_flags allocated) ""
             = "-Xmx" ++ PyStr.str allocated ++ "G")
  /\ (forall (w : World) (server_name : string) (tunnel_process : option proc),
        0 <= total w < 2 ^ 64 ->
        nth 1 (trace (launch_server w server_name tunnel_process)) (Sleep 0) =
        Popen ServerProc
          [ "java"; "-Xms1G";
            "-Xmx" ++ PyStr.str (4 * (total w / 1024 ^ 3) / 5) ++ "G";
            "-XX:+UseG1GC"; "-XX:+ParallelRefProcEnabled";
            "-XX:MaxGCPauseMillis=200"; "-XX:+UnlockExperimentalVMOptions";
            "-XX:+DisableExplicitGC"; "-XX:+AlwaysPreTouch";
            "-XX:G1NewSizePercent=30"; "-XX:G1MaxNewSizePercent=40";
            "-XX:G1HeapRegionSize=8M"; "-XX:G1ReservePercent=20";
            "-XX:G1HeapWastePercent=5"; "-XX:G1MixedGCCountTarget=4";
            "-XX:InitiatingHeapOccupancyPercent=15";
            "-XX:G1MixedGCLiveThresholdPercent=90";
            "-XX:G1RSetUpdatingPauseTimePercent=5"; "-XX:SurvivorRatio=32";
            "-XX:+PerfDisableSharedMem"; "-XX:MaxTenuringThreshold=1";
            "-jar"; "server.jar"; "nogui" ]).
Proof.
  split; [reflexivity|]. split; [reflexivity|].
  split; [reflexivity|]. split; [reflexivity|].
  split.
  - intros total_bytes H.
    exists (4 * (total_bytes / 1024 ^ 3) / 5).
    split; [exact (allocated_memory_of_total total_bytes H)|].
    split; [reflexivity|].
    change (1024 ^ 3) with 1073741824 in *.
    pose proof (Z.div_mod total_bytes 1073741824 ltac:(lia)).
    pose proof (Z.mod_pos_bound total_bytes 1073741824 ltac:(lia)).
    set (g := total_bytes / 1073741824) in *.
    pose proof (Z.div_mod (4 * g) 5 ltac:(lia)).
    pose proof (Z.mod_pos_bound (4 * g) 5 ltac:(lia)).
    split; [lia|]. split; [lia | reflexivity].
  - intros w server_name tunnel_process H.
    rewrite launch_server_unfold, (allocated_memory_of_total (total w) H).
    rewrite java_command_spelled.
    destruct (popen_result w ServerProc) as [[] | e]; reflexivity.
Qed.

Lemma allocated_memory_is_80_percent_of_whole_gigabytes_witness :
  (exists allocated,
      allocated_memory (total_memory 16106127360) = Returned allocated
      /\ allocated = 4 * (16106127360 / 1024 ^ 3) / 5
      /\ 5 * allocated <= 4 * (16106127360 / 1024 ^ 3) < 5 * allocated + 5
      /\ 5 * (allocated * 1024 ^ 3) <= 4 * 16106127360
      /\ nth 1 (java_flags allocated) "" = "-Xmx" ++ PyStr.str allocated ++ "G")
  /\ nth 2
       match nth 1 (trace (launch_server bare_world "survival" None)) (Sleep 0)
       with
       | Popen _ command => command
       | _ => []
       end "" = "-Xmx8G".
Proof.
  split.
  - apply (proj1 (proj2 (proj2 (proj2 (proj2
             allocated_memory_is_80_percent_of_whole_gigabytes))))
             16106127360).
    split; [lia | reflexivity].
  - rewrite (proj2 (proj2 (proj2 (proj2 (proj2
               allocated_memory_is_80_percent_of_whole_gigabytes))))
               bare_world "survival" None);
      [reflexivity | split; [discriminate | reflexivity]].
Defined.

(** ** [run_server]: the tunnel start and the shape of a run *)

Lemma start_tunnel_spec w s :
  Forall (fun ev => supervision_event ev = false) (trace (start_tunnel w s))
  /\ match result (start_tunnel w s) with
     | Returned None => quiet (trace (start_tunnel w s))
     | Returned (Some p) => p = TunnelProc
     | Raised _ => True
     end.
Proof.
  destruct s as [port [t |] | port]; cbn [start_tunnel].
  - unfold NgrokTunnel_start_tunnel, subprocess_run, subprocess_Popen.
    destruct (PyStr.is_empty t).
    + split; [repeat constructor | quiet_events].
    + destruct (run_result w ["ngrok"; "config"; "add-authtoken"; t])
        as [rc | e]; cbn; [| split; [repeat constructor | exact I]].
      destruct (popen_result w TunnelProc) as [[] | e]; cbn;
        (split; [repeat constructor | trivial]).
  - split; [repeat constructor | quiet_events].
  - unfold PlayitGGTunnel_start_tunnel, subprocess_Popen.
    destruct (popen_result w TunnelProc) as [[] | e]; cbn;
      (split; [repeat constructor | trivial]).
Qed.

(** A run either never reaches the tunnel selection and touches no process,
    or it is a process-free prefix followed by [run_server_with]. *)
Lemma run_server_cases w server_name :
  quiet (trace (run_server w server_name))
  \/ exists pre tunnel_service,
       quiet pre
       /\ result (select_tunnel_service w) = Returned tunnel_service
       /\ trace (run_server w server_name) =
            (pre ++ trace (run_server_with w server_name tunnel_service))%list
       /\ result (run_server w server_name) =
            result (run_server_with w server_name tunnel_service).
Proof.
  unfold run_server.
  destruct (path_exists w (server_dir_of w server_name));
    cbn [negb]; [| left; quiet_events].
  pose proof (release_port_quiet w 25565) as Hrel.
  pose proof (select_tunnel_service_quiet w) as Hsel.
  destruct (chdir_result w (server_dir_of w server_name)) as [[] | e];
    [| left; quiet_events].
  destruct (release_port w 25565) as [t1 [[] | e1]];
    [| left; cbn in *; apply (quiet_app [_] t1); [quiet_events | exact Hrel]].
  destruct (load_config w) as [[] | [| cls msg]].
  - destruct (select_tunnel_service w) as [t2 [ts | e2]].
    + right. exists (Chdir (server_dir_of w server_name) :: t1 ++ t2)%list, ts.
      cbn in Hrel, Hsel.
      split; [apply (quiet_app [_]); [quiet_events | now apply quiet_app]|].
      split; [reflexivity|].
      cbn. destruct (run_server_with w server_name ts) as [t3 o3].
      cbn. rewrite <- !app_assoc. split; reflexivity.
    + left. cbn in *. rewrite ?app_nil_r.
      apply (quiet_app [_]); [quiet_events | now apply quiet_app].
  - left. cbn in *. rewrite ?app_nil_r.
    apply (quiet_app [_]); [quiet_events | exact Hrel].
  - left. cbn in *. rewrite ?app_nil_r.
    apply (quiet_app [_]); [quiet_events|].
    apply quiet_app; [exact Hrel | quiet_events].
Qed.

Lemma no_supervision_not_In t ev :
  Forall (fun ev => supervision_event ev = false) t ->
  supervision_event ev = true -> ~ In ev t.
Proof.
  intros Hq Hev Hin.
  rewrite Forall_forall in Hq. specialize (Hq ev Hin). congruence.
Qed.

Lemma no_supervision_count_terminate t p :
  Forall (fun ev => supervision_event ev = false) t ->
  count (is_terminate p) t = 0%nat.
Proof.
  unfold count. induction 1 as [| ev t Hev _ IH]; [reflexivity|].
  cbn [filter]. destruct ev; try discriminate Hev; cbn; exact IH.
Qed.

(** From the tunnel start on, a run either never waits for the server, or
    it starts the tunnel (trace [tunnel_events]), launches the server and
    enters the wait with the handle [tunnel_process]. *)
Lemma run_server_with_cases w server_name tunnel_service :
  ~ In (Wait ServerProc) (trace (run_server_with w server_name tunnel_service))
  \/ exists tunnel_events tunnel_process allocated,
       trace (run_server_with w server_name tunnel_service) =
         (tunnel_events
          ++ starting_message
          :: Popen ServerProc (java_command allocated)
          :: ThreadStart "monitor_server"
          :: trace (wait_for_server w ServerProc tunnel_process))%list
       /\ result (run_server_with w server_name tunnel_service) =
            result (wait_for_server w ServerProc tunnel_process)
       /\ allocated_memory (total_memory (total w)) = Returned allocated
       /\ Forall (fun ev => supervision_event ev = false) tunnel_events
       /\ (tunnel_process = None -> quiet tunnel_events)
       /\ (forall p, tunnel_process = Some p -> p = TunnelProc).
Proof.
  unfold run_server_with.
  set (start := match tunnel_service with
                | Some s => start_tunnel w s
                | None => ret None
                end).
  assert (Hstart :
            Forall (fun ev => supervision_event ev = false) (trace start)
            /\ match result start with
               | Returned None => quiet (trace start)
               | Returned (Some p) => p = TunnelProc
               | Raised _ => True
               end).
  { subst start. destruct tunnel_service as [s |].
    - apply start_tunnel_spec.
    - split; [constructor | quiet_events]. }
  destruct Hstart as [Hsup Hres].
  rewrite trace_bind, result_bind.
  destruct (result start) as [tp | e].
  - rewrite launch_server_unfold.
    destruct (allocated_memory (total_memory (total w))) as [a | e] eqn:Ha.
    + destruct (popen_result w ServerProc) as [[] | e].
      * right. exists (trace start), tp, a. cbn [trace result fst snd].
        repeat split; try assumption.
        -- intros ->. exact Hres.
        -- intros p ->. exact Hres.
      * left. cbn [trace fst]. rewrite in_app_iff. intros [Hin | Hin].
        -- exact (no_supervision_not_In _ (Wait ServerProc) Hsup eq_refl Hin).
        -- destruct Hin as [Hin | [Hin | []]]; discriminate Hin.
    + left. cbn [trace fst]. rewrite app_nil_r.
      exact (no_supervision_not_In _ (Wait ServerProc) Hsup eq_refl).
  - left. rewrite app_nil_r. exact (no_supervision_not_In _ (Wait ServerProc) Hsup eq_refl).
Qed.

(** ** The tunnel never outlives the server *)

(** C1.  Take any run of [run_server] that reaches the wait for the server
    process and in which a tunnel process was started.  However the wait
    ends -- the server exits with any status, [KeyboardInterrupt] is raised,
    or the wait raises some other exception -- [terminate()] is called on
    the tunnel process exactly once, and only after the wait: never before
    it, once after it.  The function then returns normally in the first two
    cases and lets the exception through in the third. *)
Theorem run_server_terminates_tunnel_once (w : World) (server_name : string) :
  In (Wait ServerProc) (trace (run_server w server_name)) ->
  (exists args, In (Popen TunnelProc args) (trace (run_server w server_name))) ->
  exists before after,
    trace (run_server w server_name) = (before ++ Wait ServerProc :: after)%list
    /\ count (is_terminate TunnelProc) before = 0%nat
    /\ count (is_terminate TunnelProc) after = 1%nat
    /\ count (is_terminate TunnelProc) (trace (run_server w server_name))
       = 1%nat
    /\ result (run_server w server_name) =
         match wait_result w with
         | Raised (Exception cls msg) => Raised (Exception cls msg)
         | _ => Returned tt
         end.
Proof.
  intros Hwait [args Hpopen].
  destruct (run_server_cases w server_name)
    as [Hq | (pre & ts & Hpre & _ & Ht & Hr)].
  { exfalso. exact (quiet_not_In _ (Wait ServerProc) Hq eq_refl Hwait). }
  rewrite Ht in Hwait, Hpopen |- *. rewrite Hr. clear Ht Hr.
  rewrite in_app_iff in Hwait, Hpopen.
  destruct Hwait as [Hwait | Hwait];
    [exfalso; exact (quiet_not_In _ (Wait ServerProc) Hpre eq_refl Hwait)|].
  destruct Hpopen as [Hpopen | Hpopen];
    [exfalso; exact (quiet_not_In _ (Popen TunnelProc args) Hpre eq_refl Hpopen)|].
  destruct (run_server_with_cases w server_name ts)
    as [Hno | (tA & tp & a & Ht & Hr & _ & Hsup & Hnone & Hsome)];
    [contradiction|].
  rewrite Ht in Hpopen |- *. rewrite Hr. clear Ht Hr Hwait.
  rewrite wait_for_server_unfold in *. cbn [trace result fst snd] in *.
  assert (Htp : tp = Some TunnelProc).
  { destruct tp as [p |]; [now rewrite (Hsome p eq_refl)|].
    exfalso. rewrite in_app_iff in Hpopen. destruct Hpopen as [Hin | Hin].
    - exact (quiet_not_In _ (Popen TunnelProc args) (Hnone eq_refl) eq_refl Hin).
    - cbn in Hin. rewrite app_nil_r in Hin.
      destruct Hin as [Hin | [Hin | [Hin | [Hin | Hin]]]];
        try discriminate Hin.
      destruct (wait_result w) as [rc | [| cls msg]]; cbn in Hin;
        repeat (destruct Hin as [Hin | Hin]; [discriminate Hin|]);
        exact Hin. }
  subst tp.
  pose proof (quiet_count_terminate pre TunnelProc Hpre) as Hc1.
  pose proof (no_supervision_count_terminate tA TunnelProc Hsup) as Hc2.
  exists (pre ++ tA ++ [starting_message;
                        Popen ServerProc (java_command a);
                        ThreadStart "monitor_server"])%list.
  eexists. split; [| split; [| split; [| split]]].
  - rewrite <- !app_assoc. reflexivity.
  - rewrite !count_app, Hc1, Hc2. reflexivity.
  - destruct (wait_result w) as [rc | [| cls msg]]; reflexivity.
  - rewrite !count_app, Hc1, Hc2.
    destruct (wait_result w) as [rc | [| cls msg]]; reflexivity.
  - reflexivity.
Qed.

Lemma run_server_terminates_tunnel_once_witness :
  exists before after,
    trace (run_server playit_world "survival") =
      (before ++ Wait ServerProc :: after)%list
    /\ count (is_terminate TunnelProc) before = 0%nat
    /\ count (is_terminate TunnelProc) after = 1%nat
    /\ count (is_terminate TunnelProc) (trace (run_server playit_world "survival"))
       = 1%nat
    /\ result (run_server playit_world "survival") = Returned tt.
Proof.
  apply (run_server_terminates_tunnel_once playit_world "survival").
  - vm_compute. repeat (try (left; reflexivity); right).
  - exists ["playit"; "run"].
    vm_compute. repeat (try (left; reflexivity); right).
Defined.

(** ** Running without a tunnel *)

Lemma release_port_result w :
  result (release_port w 25565) =
  match run_shell_result w "fuser -k 25565/tcp" with
  | Raised KeyboardInterrupt => Raised KeyboardInterrupt
  | _ => Returned tt
  end.
Proof.
  unfold release_port, subprocess_run_shell.
  change ("fuser -k " ++ PyStr.str 25565 ++ "/tcp") with "fuser -k 25565/tcp".
  destruct (run_shell_result w "fuser -k 25565/tcp") as [rc | [| cls msg]];
    reflexivity.
Qed.

(** The run up to the tunnel selection, when the directory is there, the
    port release was not interrupted and the configuration loads. *)
Lemma run_server_reaches_selection w server_name :
  path_exists w (server_dir_of w server_name) = true ->
  chdir_result w (server_dir_of w server_name) = Returned tt ->
  run_shell_result w "fuser -k 25565/tcp" <> Raised KeyboardInterrupt ->
  load_config w = Returned tt ->
  trace (run_server w server_name) =
    (Chdir (server_dir_of w server_name)
     :: trace (release_port w 25565)
     ++ trace (select_tunnel_service w)
     ++ match result (select_tunnel_service w) with
        | Returned tunnel_service =>
            trace (run_server_with w server_name tunnel_service)
        | Raised _ => []
        end)%list
  /\ result (run_server w server_name) =
       match result (select_tunnel_service w) with
       | Returned tunnel_service =>
           result (run_server_with w server_name tunnel_service)
       | Raised e => Raised e
       end.
Proof.
  intros Hdir Hcd Hport Hcfg.
  pose proof (release_port_result w) as Hrel.
  unfold run_server. rewrite Hdir, Hcd, Hcfg. cbn [negb].
  destruct (run_shell_result w "fuser -k 25565/tcp") as [rc | [| cls msg]];
    [| congruence |];
    destruct (release_port w 25565) as [t1 o1]; cbn in Hrel; subst o1;
    destruct (select_tunnel_service w) as [t2 [ts | e2]]; cbn;
    try (destruct (run_server_with w server_name ts) as [t3 o3]; cbn);
    rewrite ?app_nil_r; split; reflexivity.
Qed.

Lemma run_server_with_None w server_name :
  run_server_with w server_name None = launch_server w server_name None.
Proof.
  unfold run_server_with, ret. rewrite bind_returned.
  destruct (launch_server w server_name None). reflexivity.
Qed.

Lemma launch_server_None_trace w server_name allocated :
  allocated_memory (total_memory (total w)) = Returned allocated ->
  In (Popen ServerProc (java_command allocated))
     (trace (launch_server w server_name None))
  /\ (forall args,
         ~ In (Popen TunnelProc args) (trace (launch_server w server_name None)))
  /\ count (is_terminate TunnelProc) (trace (launch_server w server_name None))
     = 0%nat.
Proof.
  intros Ha. rewrite launch_server_unfold, Ha, wait_for_server_unfold.
  destruct (popen_result w ServerProc) as [[] | e],
           (wait_result w) as [rc | [| cls msg]];
    cbn; (split; [tauto | split; [| reflexivity]]);
    intros args Hin;
    repeat (destruct Hin as [Hin | Hin]; [discriminate Hin|]); exact Hin.
Qed.

Lemma launch_server_None_no_tunnel w server_name :
  (forall args,
      ~ In (Popen TunnelProc args) (trace (launch_server w server_name None)))
  /\ count (is_terminate TunnelProc) (trace (launch_server w server_name None))
     = 0%nat.
Proof.
  destruct (allocated_memory (total_memory (total w))) as [a | e] eqn:Ha.
  - apply (launch_server_None_trace w server_name a Ha).
  - rewrite launch_server_unfold, Ha. split; [intros args []| reflexivity].
Qed.

Lemma launch_server_None_launched w server_name :
  0 <= total w < 2 ^ 64 ->
  popen_result w ServerProc = Returned tt ->
  launch_server w server_name None =
  (([ starting_message;
      Popen ServerProc (java_command (4 * (total w / 1024 ^ 3) / 5));
      ThreadStart "monitor_server";
      Wait ServerProc ]
    ++ match wait_result w with
       | Raised KeyboardInterrupt => [stopping_message]
       | _ => []
       end)%list,
   match wait_result w with
   | Raised (Exception cls msg) => Raised (Exception cls msg)
   | _ => Returned tt
   end).
Proof.
  intros Htotal Hpopen.
  rewrite launch_server_unfold, (allocated_memory_of_total _ Htotal), Hpopen.
  rewrite wait_for_server_unfold. cbn [trace result fst snd stop_tunnel].
  destruct (wait_result w) as [rc | [| cls msg]]; reflexivity.
Qed.

(** C6.  When the constructor receives an empty token and
    [NGROK_AUTH_TOKEN] is unset, [NgrokTunnel.start_tunnel] logs
    "⚠️  No Ngrok authentication token provided." in red and returns [None]
    without raising; a caller holding that service then behaves exactly as
    with no tunnel service at all: it starts no tunnel process and
    terminates none.  Where [java] can be started, the run is the warning,
    the start-up message, the [java] command with its flags, the monitor
    thread and the wait for the server, followed only by the stop message
    when the wait is interrupted from the keyboard; it ends normally unless
    the wait itself raises an error. *)
Theorem ngrok_without_token_is_not_fatal
  (w : World) (local_port : Z) (server_name : string) :
  getenv w "NGROK_AUTH_TOKEN" = None ->
  let service := NgrokTunnel_init w local_port "" in
  start_tunnel w service =
    ([Log "⚠️  No Ngrok authentication token provided." RED PyStr.nl],
     Returned None)
  /\ run_server_with w server_name (Some service) =
       (Log "⚠️  No Ngrok authentication token provided." RED PyStr.nl
          :: trace (run_server_with w server_name None),
        result (run_server_with w server_name None))
  /\ (forall args,
         ~ In (Popen TunnelProc args)
              (trace (run_server_with w server_name (Some service))))
  /\ count (is_terminate TunnelProc)
       (trace (run_server_with w server_name (Some service))) = 0%nat
  /\ (0 <= total w < 2 ^ 64 ->
      popen_result w ServerProc = Returned tt ->
      run_server_with w server_name (Some service) =
      (([ Log "⚠️  No Ngrok authentication token provided." RED PyStr.nl;
          Log "⚙️  Starting Minecraft server with optimized settings..."
            CYAN PyStr.nl;
          Popen ServerProc
            [ "java"; "-Xms1G";
              ("-Xmx" ++ PyStr.str (4 * (total w / 1024 ^ 3) / 5) ++ "G")%string;
              "-XX:+UseG1GC"; "-XX:+ParallelRefProcEnabled";
              "-XX:MaxGCPauseMillis=200"; "-XX:+UnlockExperimentalVMOptions";
              "-XX:+DisableExplicitGC"; "-XX:+AlwaysPreTouch";
              "-XX:G1NewSizePercent=30"; "-XX:G1MaxNewSizePercent=40";
              "-XX:G1HeapRegionSize=8M"; "-XX:G1ReservePercent=20";
              "-XX:G1HeapWastePercent=5"; "-XX:G1MixedGCCountTarget=4";
              "-XX:InitiatingHeapOccupancyPercent=15";
              "-XX:G1MixedGCLiveThresholdPercent=90";
              "-XX:G1RSetUpdatingPauseTimePercent=5"; "-XX:SurvivorRatio=32";
              "-XX:+PerfDisableSharedMem"; "-XX:MaxTenuringThreshold=1";
              "-jar"; "server.jar"; "nogui" ];
          ThreadStart "monitor_server";
          Wait ServerProc ]
        ++ match wait_result w with
           | Raised KeyboardInterrupt =>
               [Log (PyStr.nl ++ "🛑 Stopping server...") YELLOW PyStr.nl]
           | _ => []
           end)%list,
       match wait_result w with
       | Raised (Exception cls msg) => Raised (Exception cls msg)
       | _ => Returned tt
       end)).
Proof.
  intros Henv service.
  assert (Hstart : start_tunnel w service = ([no_token_warning], Returned None)).
  { subst service. unfold NgrokTunnel_init. cbn. now rewrite Henv. }
  assert (Hrun : run_server_with w server_name (Some service) =
                 (no_token_warning :: trace (run_server_with w server_name None),
                  result (run_server_with w server_name None))).
  { rewrite run_server_with_None. unfold run_server_with. rewrite Hstart.
    rewrite bind_returned. reflexivity. }
  split; [exact Hstart|]. split; [exact Hrun|].
  rewrite Hrun, run_server_with_None. cbn [trace fst].
  destruct (launch_server_None_no_tunnel w server_name) as [Hno Hcount].
  split; [| split].
  - intros args [Hin | Hin]; [discriminate Hin | exact (Hno args Hin)].
  - change (no_token_warning :: ?t)%list with ([no_token_warning] ++ t)%list.
    rewrite count_app. exact Hcount.
  - intros Htotal Hpopen.
    rewrite (launch_server_None_launched w server_name Htotal Hpopen).
    rewrite java_command_spelled. reflexivity.
Qed.

Lemma ngrok_without_token_is_not_fatal_witness :
  let service := NgrokTunnel_init bare_world 25565 "" in
  start_tunnel bare_world service =
    ([Log "⚠️  No Ngrok authentication token provided." RED PyStr.nl],
     Returned None)
  /\ (forall args,
         ~ In (Popen TunnelProc args)
              (trace (run_server_with bare_world "survival" (Some service))))
  /\ count (is_terminate TunnelProc)
       (trace (run_server_with bare_world "survival" (Some service))) = 0%nat
  /\ run_server_with bare_world "survival" (Some service) =
     ([ Log "⚠️  No Ngrok authentication token provided." RED PyStr.nl;
        Log "⚙️  Starting Minecraft server with optimized settings..."
          CYAN PyStr.nl;
        Popen ServerProc
          [ "java"; "-Xms1G"; "-Xmx8G";
            "-XX:+UseG1GC"; "-XX:+ParallelRefProcEnabled";
            "-XX:MaxGCPauseMillis=200"; "-XX:+UnlockExperimentalVMOptions";
            "-XX:+DisableExplicitGC"; "-XX:+AlwaysPreTouch";
            "-XX:G1NewSizePercent=30"; "-XX:G1MaxNewSizePercent=40";
            "-XX:G1HeapRegionSize=8M"; "-XX:G1ReservePercent=20";
            "-XX:G1HeapWastePercent=5"; "-XX:G1MixedGCCountTarget=4";
            "-XX:InitiatingHeapOccupancyPercent=15";
            "-XX:G1MixedGCLiveThresholdPercent=90";
            "-XX:G1RSetUpdatingPauseTimePercent=5"; "-XX:SurvivorRatio=32";
            "-XX:+PerfDisableSharedMem"; "-XX:MaxTenuringThreshold=1";
            "-jar"; "server.jar"; "nogui" ];
        ThreadStart "monitor_server";
        Wait ServerProc ],
      Returned tt).
Proof.
  cbv zeta.
  pose proof (ngrok_without_token_is_not_fatal bare_world 25565 "survival"
                eq_refl)
    as (Hstart & _ & Hno & Hcount & Hrun).
  split; [exact Hstart|]. split; [exact Hno|]. split; [exact Hcount|].
  assert (Htotal : 0 <= total bare_world < 2 ^ 64)
    by (split; [discriminate | reflexivity]).
  specialize (Hrun Htotal eq_refl).
  etransitivity; [exact Hrun|].
  vm_compute. reflexivity.
Defined.

Lemma select_tunnel_service_empty_registry w rc_ngrok rc_playit :
  run_result w ["which"; "ngrok"] = Returned rc_ngrok -> rc_ngrok <> 0 ->
  run_result w ["which"; "playit"] = Returned rc_playit -> rc_playit <> 0 ->
  get_available_tunnel_services w =
    ([Run ["which"; "ngrok"]; Run ["which"; "playit"]], Returned [])
  /\ select_tunnel_service w =
       ((Run ["which"; "ngrok"] :: Run ["which"; "playit"]
         :: no_services_warning)%list,
        Returned None).
Proof.
  intros Hn Hn0 Hp Hp0.
  assert (Havail : get_available_tunnel_services w =
                   ([Run ["which"; "ngrok"]; Run ["which"; "playit"]],
                    Returned [])).
  { unfold get_available_tunnel_services, subprocess_run.
    rewrite Hn, Hp. cbn.
    apply Z.eqb_neq in Hn0, Hp0. now rewrite Hn0, Hp0. }
  split; [exact Havail|].
  unfold select_tunnel_service. rewrite Havail. reflexivity.
Qed.

(** C7.  When neither [ngrok] nor [playit] is found on the host, the
    registry is empty, and [select_tunnel_service] logs a warning that
    names both providers with the address each can be obtained from, and
    returns [None].  [run_server] then starts no tunnel process and
    terminates none; and whenever it gets as far as the tunnel selection
    (the directory exists, the port release is not interrupted, the
    configuration loads) and [java] can be started, the game server is
    launched and waited for: after events that touch no process, the run is
    the [java] command with its flags, the monitor thread and the wait for
    the server, followed only by the stop message when the wait is
    interrupted from the keyboard. *)
Theorem no_tunnel_provider_still_runs_server
  (w : World) (server_name : string) (rc_ngrok rc_playit : Z) :
  run_result w ["which"; "ngrok"] = Returned rc_ngrok -> rc_ngrok <> 0 ->
  run_result w ["which"; "playit"] = Returned rc_playit -> rc_playit <> 0 ->
  result (get_available_tunnel_services w) = Returned []
  /\ select_tunnel_service w =
       ([ Run ["which"; "ngrok"]; Run ["which"; "playit"];
          Log "⚠️  No tunnel services found. Please install one of the following:"
            YELLOW PyStr.nl;
          Log "📦 Ngrok (https://ngrok.com/download)" BLUE PyStr.nl;
          Log "📦 Playit.gg (https://playit.gg)" BLUE PyStr.nl ],
        Returned None)
  /\ (forall args,
         ~ In (Popen TunnelProc args) (trace (run_server w server_name)))
  /\ count (is_terminate TunnelProc) (trace (run_server w server_name)) = 0%nat
  /\ (path_exists w (server_dir_of w server_name) = true ->
      chdir_result w (server_dir_of w server_name) = Returned tt ->
      run_shell_result w "fuser -k 25565/tcp" <> Raised KeyboardInterrupt ->
      load_config w = Returned tt ->
      0 <= total w < 2 ^ 64 ->
      popen_result w ServerProc = Returned tt ->
      exists before,
        Forall (fun ev => process_event ev = false) before
        /\ trace (run_server w server_name) =
           (before
            ++ [ Popen ServerProc
                   [ "java"; "-Xms1G";
                     ("-Xmx" ++ PyStr.str (4 * (total w / 1024 ^ 3) / 5)
                        ++ "G")%string;
                     "-XX:+UseG1GC"; "-XX:+ParallelRefProcEnabled";
                     "-XX:MaxGCPauseMillis=200";
                     "-XX:+UnlockExperimentalVMOptions";
                     "-XX:+DisableExplicitGC"; "-XX:+AlwaysPreTouch";
                     "-XX:G1NewSizePercent=30"; "-XX:G1MaxNewSizePercent=40";
                     "-XX:G1HeapRegionSize=8M"; "-XX:G1ReservePercent=20";
                     "-XX:G1HeapWastePercent=5"; "-XX:G1MixedGCCountTarget=4";
                     "-XX:InitiatingHeapOccupancyPercent=15";
                     "-XX:G1MixedGCLiveThresholdPercent=90";
                     "-XX:G1RSetUpdatingPauseTimePercent=5";
                     "-XX:SurvivorRatio=32"; "-XX:+PerfDisableSharedMem";
                     "-XX:MaxTenuringThreshold=1";
                     "-jar"; "server.jar"; "nogui" ];
                 ThreadStart "monitor_server";
                 Wait ServerProc ]
            ++ match wait_result w with
               | Raised KeyboardInterrupt =>
                   [Log (PyStr.nl ++ "🛑 Stopping server...") YELLOW PyStr.nl]
               | _ => []
               end)%list
        /\ result (run_server w server_name) =
           match wait_result w with
           | Raised (Exception cls msg) => Raised (Exception cls msg)
           | _ => Returned tt
           end).
Proof.
  intros Hn Hn0 Hp Hp0.
  destruct (select_tunnel_service_empty_registry w _ _ Hn Hn0 Hp Hp0)
    as [Havail Hsel].
  split; [now rewrite Havail|]. split; [exact Hsel|].
  destruct (launch_server_None_no_tunnel w server_name) as [Hno Hcount].
  split; [| split].
  - intros args Hin.
    destruct (run_server_cases w server_name)
      as [Hq | (pre & ts & Hpre & Hts & Ht & _)].
    + exact (quiet_not_In _ (Popen TunnelProc args) Hq eq_refl Hin).
    + rewrite Hsel in Hts. injection Hts as <-.
      rewrite Ht, run_server_with_None, in_app_iff in Hin.
      destruct Hin as [Hin | Hin].
      * exact (quiet_not_In _ (Popen TunnelProc args) Hpre eq_refl Hin).
      * exact (Hno args Hin).
  - destruct (run_server_cases w server_name)
      as [Hq | (pre & ts & Hpre & Hts & Ht & _)].
    + now apply quiet_count_terminate.
    + rewrite Hsel in Hts. injection Hts as <-.
      rewrite Ht, run_server_with_None, count_app, Hcount.
      now rewrite (quiet_count_terminate pre TunnelProc Hpre).
  - intros Hdir Hcd Hport Hcfg Htotal Hpopen.
    destruct (run_server_reaches_selection w server_name Hdir Hcd Hport Hcfg)
      as [Ht Hr].
    pose proof (select_tunnel_service_quiet w) as Hquiet.
    rewrite Hsel in Ht, Hr, Hquiet. cbn [trace result fst snd] in Ht, Hr, Hquiet.
    rewrite run_server_with_None in Ht, Hr.
    rewrite (launch_server_None_launched w server_name Htotal Hpopen)
      in Ht, Hr.
    cbn [trace result fst snd] in Ht, Hr.
    rewrite java_command_spelled in Ht.
    eexists ((Chdir (server_dir_of w server_name)
               :: trace (release_port w 25565)) ++ _ ++ [starting_message])%list.
    split; [| split; [| exact Hr]].
    + apply quiet_app; [| apply quiet_app; [exact Hquiet | quiet_events]].
      apply (quiet_app [_]); [quiet_events | apply release_port_quiet].
    + rewrite Ht, <- !app_assoc. reflexivity.
Qed.

Lemma no_tunnel_provider_still_runs_server_witness :
  (exists before,
      Forall (fun ev => process_event ev = false) before
      /\ trace (run_server bare_world "survival") =
         (before
          ++ [ Popen ServerProc
                 [ "java"; "-Xms1G"; "-Xmx8G";
                   "-XX:+UseG1GC"; "-XX:+ParallelRefProcEnabled";
                   "-XX:MaxGCPauseMillis=200";
                   "-XX:+UnlockExperimentalVMOptions";
                   "-XX:+DisableExplicitGC"; "-XX:+AlwaysPreTouch";
                   "-XX:G1NewSizePercent=30"; "-XX:G1MaxNewSizePercent=40";
                   "-XX:G1HeapRegionSize=8M"; "-XX:G1ReservePercent=20";
                   "-XX:G1HeapWastePercent=5"; "-XX:G1MixedGCCountTarget=4";
                   "-XX:InitiatingHeapOccupancyPercent=15";
                   "-XX:G1MixedGCLiveThresholdPercent=90";
                   "-XX:G1RSetUpdatingPauseTimePercent=5";
                   "-XX:SurvivorRatio=32"; "-XX:+PerfDisableSharedMem";
                   "-XX:MaxTenuringThreshold=1";
                   "-jar"; "server.jar"; "nogui" ];
               ThreadStart "monitor_server";
               Wait ServerProc ])%list
      /\ result (run_server bare_world "survival") = Returned tt)
  /\ (forall args,
         ~ In (Popen TunnelProc args) (trace (run_server bare_world "survival")))
  /\ result (select_tunnel_service bare_world) = Returned None.
Proof.
  pose proof (no_tunnel_provider_still_runs_server bare_world "survival" 1 1
                eq_refl ltac:(discriminate) eq_refl ltac:(discriminate))
    as (_ & Hsel & Hno & _ & Hrun).
  split; [| split].
  - assert (Hport : run_shell_result bare_world "fuser -k 25565/tcp"
                    <> Raised KeyboardInterrupt) by discriminate.
    assert (Htotal : 0 <= total bare_world < 2 ^ 64)
      by (split; [discriminate | reflexivity]).
    destruct (Hrun eq_refl eq_refl Hport eq_refl Htotal eq_refl)
      as (before & Hquiet & Htrace & Hresult).
    exists before. split; [exact Hquiet|]. split; [| exact Hresult].
    etransitivity; [exact Htrace|].
    f_equal; vm_compute; reflexivity.
  - exact Hno.
  - now rewrite Hsel.
Defined.

(** ** The Ngrok credential *)

Lemma NgrokTunnel_start_tunnel_with_token w local_port t :
  PyStr.is_empty t = false ->
  exists rest,
    trace (NgrokTunnel_start_tunnel w local_port (Some t)) =
    Run ["ngrok"; "config"; "add-authtoken"; t] :: rest.
Proof.
  intros Ht. unfold NgrokTunnel_start_tunnel. rewrite Ht.
  rewrite trace_bind. unfold subprocess_run at 1.
  rewrite trace_bind. cbn [emit trace fst app]. eexists. reflexivity.
Qed.

Lemma missing_token_branch_iff w local_port auth_token :
  NgrokTunnel_start_tunnel w local_port auth_token
    = ([no_token_warning], Returned None)
  <-> token_missing auth_token = true.
Proof.
  split.
  - intros H. destruct auth_token as [t |]; [| reflexivity].
    cbn. destruct (PyStr.is_empty t) eqn:Ht; [reflexivity|].
    destruct (NgrokTunnel_start_tunnel_with_token w local_port t Ht)
      as [rest Hrest].
    rewrite H in Hrest. discriminate Hrest.
  - intros H. destruct auth_token as [t |]; cbn in H |- *.
    + now rewrite H.
    + reflexivity.
Qed.

(** C8, as stated, fails: with an empty token passed in and
    [NGROK_AUTH_TOKEN] set -- to the empty string -- the missing-credential
    branch is taken although the variable is not unset. *)
Lemma missing_token_branch_with_variable_set :
  getenv empty_token_world "NGROK_AUTH_TOKEN" = Some ""
  /\ getenv empty_token_world "NGROK_AUTH_TOKEN" <> None
  /\ start_tunnel empty_token_world (NgrokTunnel_init empty_token_world 25565 "")
     = ([no_token_warning], Returned None).
Proof. split; [reflexivity|]. split; [discriminate | reflexivity]. Qed.

(** C8, amended.  With the constructor's default arguments [auth_token] is
    the non-empty string written in the source, whatever the environment
    holds, and [start_tunnel] does not take the missing-credential branch.
    For any token passed in, that branch (warn and return [None]) is taken
    exactly when the token passed is empty and [NGROK_AUTH_TOKEN] is unset
    or set to the empty string. *)
Theorem missing_token_branch_reachability (w : World) (local_port : Z) :
  PyStr.is_empty default_auth_token = false
  /\ NgrokTunnel_init w local_port default_auth_token
     = NgrokTunnel local_port (Some default_auth_token)
  /\ start_tunnel w (NgrokTunnel_init w local_port default_auth_token)
     <> ([no_token_warning], Returned None)
  /\ (forall auth_token,
         start_tunnel w (NgrokTunnel_init w local_port auth_token)
           = ([no_token_warning], Returned None)
         <-> auth_token = ""
             /\ (getenv w "NGROK_AUTH_TOKEN" = None
                 \/ getenv w "NGROK_AUTH_TOKEN" = Some "")).
Proof.
  assert (Hiff : forall auth_token,
             start_tunnel w (NgrokTunnel_init w local_port auth_token)
               = ([no_token_warning], Returned None)
             <-> auth_token = ""
                 /\ (getenv w "NGROK_AUTH_TOKEN" = None
                     \/ getenv w "NGROK_AUTH_TOKEN" = Some "")).
  { intros auth_token. unfold NgrokTunnel_init. cbn [start_tunnel].
    rewrite missing_token_branch_iff.
    destruct auth_token as [| c t]; cbn [PyStr.is_empty token_missing].
    - destruct (getenv w "NGROK_AUTH_TOKEN") as [[| c t] |]; cbn.
      + split; [intros _; split; [reflexivity | right; reflexivity]
               | reflexivity].
      + split; [discriminate | intros [_ [H | H]]; discriminate H].
      + split; [intros _; split; [reflexivity | left; reflexivity]
               | reflexivity].
    - split; [discriminate | intros [H _]; discriminate H]. }
  split; [reflexivity|]. split; [reflexivity|]. split; [| exact Hiff].
  intros H. apply Hiff in H. destruct H as [H _]. discriminate H.
Qed.

Lemma missing_token_branch_reachability_witness :
  start_tunnel empty_token_world (NgrokTunnel_init empty_token_world 25565 "")
  = ([no_token_warning], Returned None).
Proof.
  apply (proj2 (proj2 (proj2
           (missing_token_branch_reachability empty_token_world 25565)))).
  split; [reflexivity | right; reflexivity].
Defined.

(** ** Early returns *)

(** C10.  If the server's directory does not exist, or the directory is
    entered and reading [server_config.json] raises an exception,
    [run_server] returns early, without raising: no tunnel process and no
    game-server process is spawned, no thread is started, nothing is waited
    for or terminated. *)
Theorem run_server_returns_early (w : World) (server_name : string) :
  path_exists w (server_dir_of w server_name) = false
  \/ (path_exists w (server_dir_of w server_name) = true
      /\ chdir_result w (server_dir_of w server_name) = Returned tt
      /\ run_shell_result w "fuser -k 25565/tcp" <> Raised KeyboardInterrupt
      /\ exists cls msg, load_config w = Raised (Exception cls msg)) ->
  result (run_server w server_name) = Returned tt
  /\ (forall p args, ~ In (Popen p args) (trace (run_server w server_name)))
  /\ quiet (trace (run_server w server_name)).
Proof.
  intros H.
  assert (Hgoal : result (run_server w server_name) = Returned tt
                  /\ quiet (trace (run_server w server_name))).
  { destruct H as [Hdir | (Hdir & Hcd & Hport & cls & msg & Hcfg)].
    - unfold run_server. rewrite Hdir. split; [reflexivity | quiet_events].
    - pose proof (release_port_result w) as Hres.
      pose proof (release_port_quiet w 25565) as Hq.
      unfold run_server. rewrite Hdir, Hcd, Hcfg. cbn [negb].
      destruct (run_shell_result w "fuser -k 25565/tcp") as [rc | [| c m]];
        [| congruence |];
        destruct (release_port w 25565) as [t1 o1]; cbn in Hres, Hq; subst o1;
        cbn; (split; [reflexivity|]);
        apply (quiet_app [_]); [quiet_events | | quiet_events |];
        (apply quiet_app; [exact Hq | quiet_events]). }
  destruct Hgoal as [Hres Hq]. split; [exact Hres|]. split; [| exact Hq].
  intros p args. exact (quiet_not_In _ (Popen p args) Hq eq_refl).
Qed.

Lemma run_server_returns_early_witness :
  result (run_server broken_config_world "survival") = Returned tt
  /\ (forall p args,
         ~ In (Popen p args) (trace (run_server broken_config_world "survival")))
  /\ quiet (trace (run_server broken_config_world "survival")).
Proof.
  apply (run_server_returns_early broken_config_world "survival").
  right. split; [reflexivity|]. split; [reflexivity|].
  split; [discriminate|]. do 2 eexists. reflexivity.
Defined.

(** * Further properties of the orchestration code *)

(** ** What [run_server] does to its processes *)

Lemma run_server_with_start w server_name tunnel_service :
  run_server_with w server_name tunnel_service =
  bind (start_selected w tunnel_service) (launch_server w server_name).
Proof. reflexivity. Qed.

Lemma start_selected_spec w tunnel_service :
  Forall (fun ev => supervision_event ev = false)
    (trace (start_selected w tunnel_service))
  /\ match result (start_selected w tunnel_service) with
     | Returned None => quiet (trace (start_selected w tunnel_service))
     | Returned (Some p) => p = TunnelProc
     | Raised _ => True
     end.
Proof.
  destruct tunnel_service as [s |]; cbn [start_selected].
  - apply start_tunnel_spec.
  - split; [constructor | quiet_events].
Qed.

Lemma launch_server_never_terminates_server w server_name tp :
  (forall p, tp = Some p -> p = TunnelProc) ->
  count (is_terminate ServerProc) (trace (launch_server w server_name tp))
  = 0%nat.
Proof.
  intros Htp. rewrite launch_server_unfold, wait_for_server_unfold.
  destruct (allocated_memory (total_memory (total w))) as [a | e];
    [| reflexivity].
  destruct (popen_result w ServerProc) as [[] | e]; [| reflexivity].
  destruct tp as [p |]; [rewrite (Htp p eq_refl)|];
    destruct (wait_result w) as [rc | [| cls msg]]; reflexivity.
Qed.

Lemma run_server_with_never_terminates_server w server_name tunnel_service :
  count (is_terminate ServerProc)
    (trace (run_server_with w server_name tunnel_service)) = 0%nat.
Proof.
  rewrite run_server_with_start, trace_bind, count_app.
  destruct (start_selected_spec w tunnel_service) as [Hsup Hres].
  rewrite (no_supervision_count_terminate _ ServerProc Hsup).
  destruct (result (start_selected w tunnel_service)) as [tp | e];
    [| reflexivity].
  apply launch_server_never_terminates_server.
  intros p ->. exact Hres.
Qed.

(** X1.  [run_server] never calls [terminate()] on the game-server process:
    whatever happens -- normal exit, interrupt, failure -- the only process
    it ever terminates is the tunnel. *)
Theorem run_server_never_terminates_server (w : World) (server_name : string) :
  count (is_terminate ServerProc) (trace (run_server w server_name)) = 0%nat.
Proof.
  destruct (run_server_cases w server_name)
    as [Hq | (pre & ts & Hpre & _ & Ht & _)].
  - now apply quiet_count_terminate.
  - rewrite Ht, count_app, (quiet_count_terminate pre ServerProc Hpre).
    apply run_server_with_never_terminates_server.
Qed.

Lemma launch_server_failure w server_name tp e :
  popen_result w ServerProc = Raised e ->
  (exists allocated,
      launch_server w server_name tp =
      ([starting_message; Popen ServerProc (java_command allocated)], Raised e))
  \/ (exists e', launch_server w server_name tp = ([], Raised e')).
Proof.
  intros Hp. rewrite launch_server_unfold, Hp.
  destruct (allocated_memory (total_memory (total w))) as [a | e'].
  - left. now exists a.
  - right. now exists e'.
Qed.

(** X2.  The launch of the game server sits outside the [try]/[finally]:
    when [subprocess.Popen] for [java] raises, [run_server] lets the
    exception through without waiting and without terminating anything, so
    a tunnel process started just before is left running. *)
Theorem run_server_launch_failure_leaves_tunnel
  (w : World) (server_name : string) (cmd : list string) (e : exn) :
  In (Popen ServerProc cmd) (trace (run_server w server_name)) ->
  popen_result w ServerProc = Raised e ->
  result (run_server w server_name) = Raised e
  /\ ~ In (Wait ServerProc) (trace (run_server w server_name))
  /\ count (is_terminate TunnelProc) (trace (run_server w server_name)) = 0%nat.
Proof.
  intros Hin Hp.
  destruct (run_server_cases w server_name)
    as [Hq | (pre & ts & Hpre & _ & Ht & Hr)].
  { exfalso. exact (quiet_not_In _ (Popen ServerProc cmd) Hq eq_refl Hin). }
  rewrite Ht in Hin |- *. rewrite Hr. clear Ht Hr.
  rewrite in_app_iff in Hin. destruct Hin as [Hin | Hin];
    [exfalso; exact (quiet_not_In _ (Popen ServerProc cmd) Hpre eq_refl Hin)|].
  rewrite run_server_with_start, trace_bind, result_bind in *.
  destruct (start_selected_spec w ts) as [Hsup _].
  rewrite in_app_iff in Hin. destruct Hin as [Hin | Hin];
    [exfalso;
     exact (no_supervision_not_In _ (Popen ServerProc cmd) Hsup eq_refl Hin)|].
  destruct (result (start_selected w ts)) as [tp | e0]; [| destruct Hin].
  destruct (launch_server_failure w server_name tp e Hp)
    as [[a Hl] | [e' Hl]]; rewrite Hl in Hin |- *; [| destruct Hin].
  cbn [trace result fst snd]. split; [reflexivity|]. split.
  - rewrite !in_app_iff. intros [H | [H | H]].
    + exact (quiet_not_In _ (Wait ServerProc) Hpre eq_refl H).
    + exact (no_supervision_not_In _ (Wait ServerProc) Hsup eq_refl H).
    + destruct H as [H | [H | []]]; discriminate H.
  - rewrite !count_app, (quiet_count_terminate pre TunnelProc Hpre),
      (no_supervision_count_terminate _ TunnelProc Hsup). reflexivity.
Qed.

Lemma run_server_launch_failure_leaves_tunnel_witness :
  In (Popen TunnelProc ["playit"; "run"])
     (trace (run_server no_java_world "survival"))
  /\ result (run_server no_java_world "survival") =
       Raised (Exception "FileNotFoundError"
                 "[Errno 2] No such file or directory: 'java'")
  /\ ~ In (Wait ServerProc) (trace (run_server no_java_world "survival"))
  /\ count (is_terminate TunnelProc)
       (trace (run_server no_java_world "survival")) = 0%nat.
Proof.
  split.
  - vm_compute. repeat (try (left; reflexivity); right).
  - apply (run_server_launch_failure_leaves_tunnel no_java_world "survival"
             (java_command 12)).
    + vm_compute. repeat (try (left; reflexivity); right).
    + reflexivity.
Defined.

(** ** The tunnel registry *)

Lemma get_available_tunnel_services_unfold w rc_ngrok rc_playit :
  run_result w ["which"; "ngrok"] = Returned rc_ngrok ->
  run_result w ["which"; "playit"] = Returned rc_playit ->
  get_available_tunnel_services w =
  ([Run ["which"; "ngrok"]; Run ["which"; "playit"]],
   Returned ((if rc_ngrok =? 0 then [("Ngrok", NgrokTunnelClass)] else [])
             ++ (if rc_playit =? 0 then [("Playit.gg", PlayitGGTunnelClass)]
                 else []))%list).
Proof.
  intros Hn Hp. unfold get_available_tunnel_services, subprocess_run.
  rewrite Hn, Hp. cbn.
  destruct (rc_ngrok =? 0), (rc_playit =? 0); reflexivity.
Qed.

(** X3.  What [select_tunnel_service] offers and returns.  The prompt lists
    exactly the providers whose executable [which] found, Ngrok before
    Playit.gg, and the function returns the service named by the answer,
    built for port 25565 (and, for Ngrok, with the token written in the
    source); an answer that names no offered provider gives [None].  A
    provider that is not installed is never returned. *)
Theorem select_tunnel_service_offers_installed
  (w : World) (rc_ngrok rc_playit : Z) (answer : string) :
  run_result w ["which"; "ngrok"] = Returned rc_ngrok ->
  run_result w ["which"; "playit"] = Returned rc_playit ->
  rc_ngrok = 0 \/ rc_playit = 0 ->
  prompt_answer w = Some answer ->
  let choices :=
    ((if rc_ngrok =? 0 then ["Ngrok"] else [])
     ++ (if rc_playit =? 0 then ["Playit.gg"] else []))%list in
  select_tunnel_service w =
    ([Run ["which"; "ngrok"]; Run ["which"; "playit"];
      Prompt "Select tunnel service" choices],
     Returned
       (if String.eqb answer "Ngrok" && (rc_ngrok =? 0)
        then Some (NgrokTunnel 25565 (Some default_auth_token))
        else if String.eqb answer "Playit.gg" && (rc_playit =? 0)
             then Some (PlayitGGTunnel 25565)
             else None))
  /\ (forall s,
         result (select_tunnel_service w) = Returned (Some s) ->
         In answer choices).
Proof.
  intros Hn Hp Hsome Hans choices.
  assert (Hsel : select_tunnel_service w =
    ([Run ["which"; "ngrok"]; Run ["which"; "playit"];
      Prompt "Select tunnel service" choices],
     Returned
       (if String.eqb answer "Ngrok" && (rc_ngrok =? 0)
        then Some (NgrokTunnel 25565 (Some default_auth_token))
        else if String.eqb answer "Playit.gg" && (rc_playit =? 0)
             then Some (PlayitGGTunnel 25565)
             else None))).
  { unfold select_tunnel_service.
    rewrite (get_available_tunnel_services_unfold w _ _ Hn Hp), Hans.
    subst choices.
    assert (Hz : (rc_ngrok =? 0) = true \/ (rc_playit =? 0) = true).
    { destruct Hsome as [-> | ->]; [left | right]; reflexivity. }
    destruct (rc_ngrok =? 0), (rc_playit =? 0);
      try (destruct Hz; discriminate); cbn -[String.eqb];
      rewrite ?(String.eqb_sym "Ngrok"), ?(String.eqb_sym "Playit.gg");
      destruct (String.eqb answer "Ngrok") eqn:E1;
      destruct (String.eqb answer "Playit.gg") eqn:E2;
      try reflexivity;
      apply String.eqb_eq in E1; apply String.eqb_eq in E2; congruence. }
  split; [exact Hsel|].
  intros s. rewrite Hsel. cbn [result snd]. subst choices.
  destruct (String.eqb answer "Ngrok") eqn:E1;
    destruct (String.eqb answer "Playit.gg") eqn:E2;
    destruct (rc_ngrok =? 0), (rc_playit =? 0); cbn;
    try discriminate; intros _;
    try apply String.eqb_eq in E1; try apply String.eqb_eq in E2; subst;
    auto.
Qed.

Lemma select_tunnel_service_offers_installed_witness :
  select_tunnel_service playit_world =
    ([Run ["which"; "ngrok"]; Run ["which"; "playit"];
      Prompt "Select tunnel service" ["Playit.gg"]],
     Returned (Some (PlayitGGTunnel 25565))).
Proof.
  apply (proj1 (select_tunnel_service_offers_installed playit_world 1 0
                  "Playit.gg" eq_refl eq_refl (or_intror eq_refl) eq_refl)).
Defined.

Lemma available_services_names w l :
  result (get_available_tunnel_services w) = Returned l ->
  Forall (fun entry => entry = ("Ngrok", NgrokTunnelClass)
                       \/ entry = ("Playit.gg", PlayitGGTunnelClass)) l.
Proof.
  unfold get_available_tunnel_services, subprocess_run.
  destruct (run_result w ["which"; "ngrok"]) as [rn | e1]; cbn;
    [| discriminate].
  destruct (run_result w ["which"; "playit"]) as [rp | e2]; cbn;
    [| discriminate].
  intros [= <-].
  destruct (rn =? 0), (rp =? 0);
    repeat (apply Forall_cons; [auto|]); apply Forall_nil.
Qed.

Lemma find_service_class answer l cls :
  find_service answer l = Some cls -> exists name, In (name, cls) l.
Proof.
  induction l as [| [name service] l IH]; cbn; [discriminate|].
  destruct (String.eqb name answer).
  - intros [= <-]. exists name. now left.
  - intros H. destruct (IH H) as [n Hn]. exists n. now right.
Qed.

Lemma start_tunnel_with_token w local_port t :
  PyStr.is_empty t = false ->
  result (start_tunnel w (NgrokTunnel local_port (Some t))) <> Returned None
  /\ ~ In no_token_warning
         (trace (start_tunnel w (NgrokTunnel local_port (Some t)))).
Proof.
  intros Ht. cbn [start_tunnel].
  unfold NgrokTunnel_start_tunnel, subprocess_run, subprocess_Popen.
  rewrite Ht.
  destruct (run_result w ["ngrok"; "config"; "add-authtoken"; t]) as [rc | e];
    cbn.
  - destruct (popen_result w TunnelProc) as [[] | e]; cbn;
      (split; [discriminate|]); intros H;
      repeat (destruct H as [H | H]; [discriminate H|]); exact H.
  - split; [discriminate|]. intros [H | []]. discriminate H.
Qed.

Lemma start_tunnel_playit w local_port :
  result (start_tunnel w (PlayitGGTunnel local_port)) <> Returned None
  /\ ~ In no_token_warning (trace (start_tunnel w (PlayitGGTunnel local_port))).
Proof.
  cbn [start_tunnel]. unfold PlayitGGTunnel_start_tunnel, subprocess_Popen.
  destruct (popen_result w TunnelProc) as [[] | e]; cbn;
    (split; [discriminate|]); intros H;
    repeat (destruct H as [H | H]; [discriminate H|]); exact H.
Qed.

(** X4.  Whatever the environment holds and whatever the operator answers,
    a service returned by [select_tunnel_service] targets port 25565 and,
    for Ngrok, carries the non-empty token written in the source: the
    selection never consults [NGROK_AUTH_TOKEN].  Starting such a service
    therefore never takes the missing-credential branch -- it never logs the
    missing-token warning and never returns [None]. *)
Theorem selected_service_always_has_token (w : World) (s : TunnelService) :
  result (select_tunnel_service w) = Returned (Some s) ->
  (s = NgrokTunnel 25565 (Some default_auth_token) \/ s = PlayitGGTunnel 25565)
  /\ result (start_tunnel w s) <> Returned None
  /\ ~ In no_token_warning (trace (start_tunnel w s)).
Proof.
  intros Hsel.
  assert (Hs : s = NgrokTunnel 25565 (Some default_auth_token)
               \/ s = PlayitGGTunnel 25565).
  { unfold select_tunnel_service in Hsel. rewrite result_bind in Hsel.
    destruct (result (get_available_tunnel_services w)) as [l | e] eqn:Hl;
      [| discriminate Hsel].
    pose proof (available_services_names w l Hl) as Hnames.
    destruct l as [| entry l]; [discriminate Hsel|].
    rewrite result_bind in Hsel. cbn [emit result snd] in Hsel.
    destruct (prompt_answer w) as [answer |];
      cbn [ret raise result snd] in Hsel; [| discriminate Hsel].
    injection Hsel as Hsel.
    change (option_map (fun cls => instantiate w cls 25565)
              (find_service answer (entry :: l)) = Some s) in Hsel.
    destruct (find_service answer (entry :: l)) as [cls |] eqn:Hfind;
      [| discriminate Hsel].
    cbn [option_map] in Hsel. injection Hsel as <-.
    destruct (find_service_class _ _ _ Hfind) as [name Hin].
    rewrite Forall_forall in Hnames.
    destruct (Hnames _ Hin) as [E | E]; injection E as _ ->;
      [left | right]; reflexivity. }
  split; [exact Hs|].
  destruct Hs as [-> | ->].
  - apply start_tunnel_with_token. reflexivity.
  - apply start_tunnel_playit.
Qed.

Lemma selected_service_always_has_token_witness :
  (PlayitGGTunnel 25565 = NgrokTunnel 25565 (Some default_auth_token)
   \/ PlayitGGTunnel 25565 = PlayitGGTunnel 25565)
  /\ result (start_tunnel playit_world (PlayitGGTunnel 25565)) <> Returned None
  /\ ~ In no_token_warning
         (trace (start_tunnel playit_world (PlayitGGTunnel 25565))).
Proof.
  apply (selected_service_always_has_token playit_world (PlayitGGTunnel 25565)).
  reflexivity.
Defined.

(** ** Port release *)

(** X5.  Once the server directory is entered, the first thing
    [run_server] does is run [fuser -k 25565/tcp], before the configuration
    is even read; and that step is best effort: whatever exit status the
    command returns and whatever [Exception] it raises, the run carries on
    to the tunnel selection as soon as the configuration loads. *)
Theorem port_release_is_best_effort (w : World) (server_name : string) :
  path_exists w (server_dir_of w server_name) = true ->
  chdir_result w (server_dir_of w server_name) = Returned tt ->
  (exists rest,
      trace (run_server w server_name) =
      Chdir (server_dir_of w server_name)
      :: RunShell "fuser -k 25565/tcp" :: rest)
  /\ (run_shell_result w "fuser -k 25565/tcp" <> Raised KeyboardInterrupt ->
      load_config w = Returned tt ->
      In (Run ["which"; "ngrok"]) (trace (run_server w server_name))).
Proof.
  intros Hdir Hcd. split.
  - unfold run_server. rewrite Hdir, Hcd. cbn [negb].
    rewrite trace_bind. cbn [emit trace result fst snd app].
    rewrite trace_bind. cbn [lift trace result fst snd app].
    rewrite trace_bind.
    unfold release_port at 1, subprocess_run_shell.
    change ("fuser -k " ++ PyStr.str 25565 ++ "/tcp") with "fuser -k 25565/tcp".
    destruct (run_shell_result w "fuser -k 25565/tcp") as [rc | [| cls msg]];
      cbn; eexists; reflexivity.
  - intros Hport Hcfg.
    destruct (run_server_reaches_selection w server_name Hdir Hcd Hport Hcfg)
      as [Ht _].
    rewrite Ht. right. rewrite !in_app_iff. right. left.
    unfold select_tunnel_service, get_available_tunnel_services.
    rewrite trace_bind. apply in_or_app. left.
    rewrite trace_bind. apply in_or_app. left.
    unfold subprocess_run. rewrite trace_bind. now left.
Qed.

Lemma port_release_is_best_effort_witness :
  (exists rest,
      trace (run_server bare_world "survival") =
      Chdir (server_dir_of bare_world "survival")
      :: RunShell "fuser -k 25565/tcp" :: rest)
  /\ (run_shell_result bare_world "fuser -k 25565/tcp"
        <> Raised KeyboardInterrupt ->
      load_config bare_world = Returned tt ->
      In (Run ["which"; "ngrok"]) (trace (run_server bare_world "survival"))).
Proof.
  apply (port_release_is_best_effort bare_world "survival"); reflexivity.
Defined.

(** ** More on the Ngrok polling loop *)

Lemma prefix_app_self old s : prefix old (old ++ s) = true.
Proof.
  induction old as [| c old IH]; cbn; [now destruct s|].
  destruct (ascii_dec c c) as [_ | N]; [exact IH | congruence].
Qed.

Lemma is_address_notice_address address :
  is_address_notice (address_notice address) = true.
Proof. unfold is_address_notice, address_notice. apply prefix_app_self. Qed.

Lemma poll_once_cases r :
  (exists url,
      poll_once r =
      ([HttpGet status_endpoint; address_notice url], Returned tt))
  \/ (exists e, poll_once r = ([HttpGet status_endpoint], Raised e)).
Proof.
  unfold poll_once. destruct r as [data | e]; [| right; now exists e].
  pose proof (extract_public_url_silent data) as Ht.
  unfold emit, lift. rewrite !bind_returned. cbn [app].
  destruct (extract_public_url data) as [t [url | e]]; cbn in Ht; subst t.
  - left. exists url. reflexivity.
  - right. exists e. reflexivity.
Qed.

(** X6.  For any sequence of answers of the status endpoint, the polling
    loop publishes an address at most once, and it reports having left the
    loop exactly when it has published one.  Every request that neither
    published nor was interrupted is followed by a one-second sleep. *)
Theorem get_public_url_publishes_at_most_once (responses : list (outcome json)) :
  let t := trace (get_public_url responses) in
  (count is_address_notice t <= 1)%nat
  /\ (result (get_public_url responses) = Returned true
      <-> count is_address_notice t = 1%nat)
  /\ count is_http_get t =
       (count is_sleep t
        + match result (get_public_url responses) with
          | Returned false => 0
          | _ => 1
          end)%nat.
Proof.
  induction responses as [| r responses IH]; cbn zeta.
  - cbn. repeat split; try lia; discriminate.
  - cbn [get_public_url].
    destruct (poll_once_cases r) as [[url H] | [e H]]; rewrite H.
    + cbn [trace result fst snd]. unfold count.
      cbn [filter is_address_notice is_http_get is_sleep].
      rewrite is_address_notice_address.
      change (is_http_get (address_notice url)) with false.
      change (is_sleep (address_notice url)) with false.
      cbn. repeat split; try lia; reflexivity.
    + destruct e as [| cls msg].
      * cbn. repeat split; try lia; discriminate.
      * cbn zeta in IH.
        destruct (get_public_url responses) as [t' o'].
        cbn [emit bind trace result fst snd app] in *.
        destruct IH as (IH1 & IH2 & IH3).
        change (HttpGet status_endpoint :: Sleep 1 :: t')%list
          with ([HttpGet status_endpoint; Sleep 1] ++ t')%list.
        rewrite !count_app.
        change (count is_address_notice [HttpGet status_endpoint; Sleep 1])
          with 0%nat.
        change (count is_http_get [HttpGet status_endpoint; Sleep 1])
          with 1%nat.
        change (count is_sleep [HttpGet status_endpoint; Sleep 1]) with 1%nat.
        cbn [Nat.add]. repeat split; try tauto; lia.
Qed.

Lemma get_public_url_publishes_at_most_once_witness :
  result (get_public_url
            [Returned (JDict [("tunnels", JList [])]);
             Returned ngrok_status_example;
             Returned ngrok_status_example]) = Returned true.
Proof.
  apply (proj2 (proj1 (proj2 (get_public_url_publishes_at_most_once
                                [Returned (JDict [("tunnels", JList [])]);
                                 Returned ngrok_status_example;
                                 Returned ngrok_status_example])))).
  reflexivity.
Defined.

Lemma dict_tunnels_not_ready items :
  dict_get items "tunnels" = None \/ dict_get items "tunnels" = Some (JList []) ->
  poll_fails (Returned (JDict items)).
Proof.
  intros H. unfold poll_fails, poll_once.
  unfold emit, lift. rewrite !result_bind. cbn [result snd].
  unfold extract_public_url. rewrite !result_bind.
  unfold getitem_key. cbn [lift result snd].
  destruct H as [-> | ->]; cbn; do 2 eexists; reflexivity.
Qed.

Lemma no_tunnel_yet_fails r : no_tunnel_yet r -> poll_fails r.
Proof.
  intros [(cls & msg & ->) | (items & -> & H)].
  - exists cls, msg. reflexivity.
  - now apply dict_tunnels_not_ready.
Qed.

(** X7.  While Ngrok has no tunnel to report -- the request fails, the
    answer has no ["tunnels"] entry, or the list of tunnels is empty --
    the polling loop publishes nothing and does not give up: each such
    answer costs one request and one second of sleep, and the loop is still
    polling afterwards, however many answers there are. *)
Theorem get_public_url_keeps_polling (responses : list (outcome json)) :
  Forall no_tunnel_yet responses ->
  get_public_url responses =
  (concat (map (fun _ => failed_attempt) responses), Returned false).
Proof.
  induction 1 as [| r responses Hr _ IH]; [reflexivity|].
  rewrite (get_public_url_retries r responses (no_tunnel_yet_fails r Hr)), IH.
  reflexivity.
Qed.

Lemma get_public_url_keeps_polling_witness :
  get_public_url
    [Raised (Exception "ConnectionError" "connection refused");
     Returned (JDict [("tunnels", JList []); ("uri", JStr "/api/tunnels")]);
     Returned (JDict [])] =
  ([HttpGet status_endpoint; Sleep 1; HttpGet status_endpoint; Sleep 1;
    HttpGet status_endpoint; Sleep 1], Returned false).
Proof.
  apply (get_public_url_keeps_polling
           [Raised (Exception "ConnectionError" "connection refused");
            Returned (JDict [("tunnels", JList []); ("uri", JStr "/api/tunnels")]);
            Returned (JDict [])]).
  repeat apply Forall_cons; try apply Forall_nil.
  - left. do 2 eexists. reflexivity.
  - right. eexists. split; [reflexivity | right; reflexivity].
  - right. eexists. split; [reflexivity | left; reflexivity].
Defined.

Lemma replace_from_skip x old new s :
  PyStr.replace_from (String.length x) old new (x ++ s) =
  PyStr.replace_from 0 old new s.
Proof. induction x as [| c x IH]; [reflexivity | exact IH]. Qed.

Lemma replace_absent old new s :
  PyStr.contains old s = false -> PyStr.replace old new s = s.
Proof.
  unfold PyStr.replace. induction s as [| c s IH]; intros H; [reflexivity|].
  cbn [PyStr.contains] in H. apply orb_false_iff in H. destruct H as [Hp Hc].
  cbn [PyStr.replace_from]. rewrite Hp, (IH Hc). reflexivity.
Qed.

Lemma replace_strips_prefix old rest :
  PyStr.is_empty old = false ->
  PyStr.contains old rest = false ->
  PyStr.replace old "" (old ++ rest) = rest.
Proof.
  intros Hold Hrest. destruct old as [| c old]; [discriminate Hold|].
  unfold PyStr.replace.
  change (String c old ++ rest) with (String c (old ++ rest)).
  cbn [PyStr.replace_from].
  change (String c (old ++ rest)) with (String c old ++ rest).
  rewrite prefix_app_self. cbn [String.length Nat.pred append].
  rewrite replace_from_skip. exact (replace_absent _ _ _ Hrest).
Qed.

Lemma bind_lift_returned {A B} (a : A) (k : A -> M B) :
  bind (lift (Returned a)) k = k a.
Proof. unfold lift. rewrite bind_returned. now destruct (k a). Qed.

(** X8.  The polling task publishes the address of the first tunnel only,
    with its scheme removed: whenever the status object has a ["tunnels"]
    list whose first entry has a ["public_url"] of the form
    [tcp://<address>] (the address itself free of "tcp://"), one pass
    requests the status once and logs "✨ Server accessible at: " followed
    by exactly [<address>], in green, whatever other keys the objects carry
    and whatever tunnels follow in the list. *)
Theorem poll_once_publishes_first_tunnel
  (items entry : list (string * json)) (others : list json) (address : string) :
  dict_get items "tunnels" = Some (JList (JDict entry :: others)) ->
  dict_get entry "public_url" = Some (JStr ("tcp://" ++ address)) ->
  PyStr.contains "tcp://" address = false ->
  poll_once (Returned (JDict items)) =
  ([HttpGet "http://localhost:4040/api/tunnels";
    Log ("✨ Server accessible at: " ++ address) GREEN PyStr.nl],
   Returned tt).
Proof.
  intros Ht Hu Ha.
  assert (He : extract_public_url (JDict items) = ([], Returned address)).
  { unfold extract_public_url. unfold getitem_key at 1.
    rewrite Ht, bind_lift_returned. cbn [getitem_0].
    rewrite bind_lift_returned. cbn [getitem_key].
    rewrite Hu, bind_lift_returned. cbn [json_replace lift].
    now rewrite (replace_strips_prefix "tcp://" address eq_refl Ha). }
  unfold poll_once, emit, lift. rewrite !bind_returned, He. reflexivity.
Qed.

Lemma poll_once_publishes_first_tunnel_witness :
  poll_once
    (Returned
       (JDict [("tunnels",
                JList [JDict [("name", JStr "command_line");
                              ("public_url", JStr "tcp://0.tcp.ngrok.io:17714");
                              ("proto", JStr "tcp")];
                       JDict [("public_url", JStr "tcp://ignored:1")]]);
               ("uri", JStr "/api/tunnels")])) =
  ([HttpGet "http://localhost:4040/api/tunnels";
    Log "✨ Server accessible at: 0.tcp.ngrok.io:17714" GREEN PyStr.nl],
   Returned tt).
Proof.
  eapply (poll_once_publishes_first_tunnel _ _ _ "0.tcp.ngrok.io:17714");
    reflexivity.
Defined.

(** ** More on the Playit.gg reader and the server monitor *)

Lemma read_output_line_cases line :
  read_output_line line =
  if PyStr.contains "agent connected" (PyStr.lower line)
  then ([Log "✅ Playit.gg agent connected successfully!" GREEN PyStr.nl],
        Returned tt)
  else if PyStr.contains "tunnel ready" (PyStr.lower line)
       then match PyStr.last_item (PyStr.split (PyStr.strip line)) with
            | Some address => ([address_notice address], Returned tt)
            | None => ([], Returned tt)
            end
       else ([], Returned tt).
Proof.
  unfold read_output_line.
  destruct (PyStr.contains "agent connected" (PyStr.lower line));
    [reflexivity|].
  destruct (PyStr.contains "tunnel ready" (PyStr.lower line)) eqn:Hr;
    [| reflexivity].
  destruct (last_token_exists "t" "unnel ready" line eq_refl Hr) as [a Ha].
  now rewrite Ha.
Qed.

(** X9.  The Playit.gg reader runs through any output stream without
    raising -- the [split()[-1]] it performs can never fail, because a line
    that mentions "tunnel ready" has at least one token.  Over the stream it
    logs one agent-connected notice per line that mentions "agent
    connected", and one address per line that mentions "tunnel ready"
    without mentioning "agent connected" (both case-insensitively). *)
Theorem read_output_never_raises (lines : list string) :
  result (read_output lines) = Returned tt
  /\ count is_agent_notice (trace (read_output lines)) =
       length (filter (fun line =>
                         PyStr.contains "agent connected" (PyStr.lower line))
                 lines)
  /\ count is_address_notice (trace (read_output lines)) =
       length (filter publishes_address lines).
Proof.
  induction lines as [| line lines (IHr & IHa & IHp)]; [now repeat split|].
  cbn [read_output]. rewrite result_bind, trace_bind, !count_app.
  rewrite read_output_line_cases. cbn [filter]. unfold publishes_address at 1.
  destruct (PyStr.contains "agent connected" (PyStr.lower line)).
  - cbn [result trace fst snd negb andb]. rewrite IHa, IHp.
    split; [exact IHr | split; reflexivity].
  - destruct (PyStr.contains "tunnel ready" (PyStr.lower line)) eqn:Hr.
    + destruct (last_token_exists "t" "unnel ready" line eq_refl Hr)
        as [a Ha].
      rewrite Ha. cbn [result trace fst snd negb andb]. rewrite IHa, IHp.
      split; [exact IHr | split; [reflexivity|]].
      unfold count at 1. cbn [filter].
      now rewrite is_address_notice_address.
    + cbn [result trace fst snd negb andb]. rewrite IHa, IHp.
      split; [exact IHr | split; reflexivity].
Qed.

Lemma has_space_app s1 s2 :
  has_space (s1 ++ s2) = has_space s1 || has_space s2.
Proof.
  induction s1 as [| c s1 IH]; [reflexivity|].
  cbn. now rewrite IH, orb_assoc.
Qed.

Lemma split_from_tokens cur s :
  has_space cur = false ->
  Forall (fun token => PyStr.is_empty token = false
                       /\ has_space token = false)
    (PyStr.split_from cur s).
Proof.
  revert cur. induction s as [| c s IH]; intros cur Hcur; cbn.
  - destruct cur; repeat constructor. exact Hcur.
  - destruct (PyStr.is_space c) eqn:Hc.
    + destruct cur as [| c0 cur]; cbn [PyStr.is_empty].
      * now apply IH.
      * constructor; [split; [reflexivity | exact Hcur] | now apply IH].
    + apply IH. rewrite has_space_app, Hcur. cbn. now rewrite Hc.
Qed.

Lemma last_item_In {A} (l : list A) x : PyStr.last_item l = Some x -> In x l.
Proof.
  induction l as [| a l IH]; [discriminate|].
  destruct l as [| b l]; [intros [= <-]; now left|].
  intros H. right. exact (IH H).
Qed.

Lemma split_from_lstrip s :
  PyStr.split_from "" (PyStr.lstrip s) = PyStr.split_from "" s.
Proof.
  induction s as [| c s IH]; [reflexivity|].
  cbn [PyStr.lstrip]. destruct (PyStr.is_space c) eqn:Hc.
  - cbn [PyStr.split_from]. now rewrite Hc.
  - reflexivity.
Qed.

Lemma split_from_rstrip cur s :
  PyStr.split_from cur (PyStr.rstrip s) = PyStr.split_from cur s.
Proof.
  revert cur. induction s as [| c s IH]; intros cur; [reflexivity|].
  cbn [PyStr.rstrip].
  destruct (PyStr.is_space c) eqn:Hc; cbn [andb].
  - destruct (PyStr.is_empty (PyStr.rstrip s)) eqn:He.
    + assert (Hr : PyStr.rstrip s = "")
        by (destruct (PyStr.rstrip s); [reflexivity | discriminate He]).
      cbn [PyStr.split_from]. rewrite Hc, <- (IH ""), Hr. reflexivity.
    + cbn [PyStr.split_from]. rewrite Hc, !IH. reflexivity.
  - cbn [PyStr.split_from]. rewrite Hc. apply IH.
Qed.

(** X10.  The call to [strip()] before [split()] changes nothing: a line
    has the same tokens stripped or not.  And the address the reader
    publishes is always a proper token: it is not empty and contains no
    whitespace (in particular not the line's trailing newline). *)
Theorem published_address_is_a_token (line : string) :
  PyStr.split (PyStr.strip line) = PyStr.split line
  /\ (forall address,
         PyStr.last_item (PyStr.split (PyStr.strip line)) = Some address ->
         PyStr.is_empty address = false /\ has_space address = false).
Proof.
  assert (Hsplit : PyStr.split (PyStr.strip line) = PyStr.split line).
  { unfold PyStr.split, PyStr.strip.
    now rewrite split_from_rstrip, split_from_lstrip. }
  split; [exact Hsplit|].
  intros address Hlast. apply last_item_In in Hlast.
  pose proof (split_from_tokens "" (PyStr.strip line) eq_refl) as Htok.
  rewrite Forall_forall in Htok. exact (Htok address Hlast).
Qed.

Lemma published_address_is_a_token_witness :
  PyStr.is_empty "1.2.3.4:5555" = false /\ has_space "1.2.3.4:5555" = false.
Proof.
  apply (proj2 (published_address_is_a_token
                  ("tunnel ready" ++ PyStr.nl ++ " 1.2.3.4:5555 " ++ PyStr.nl))).
  reflexivity.
Defined.

(** X11.  The server monitor echoes every line of the server's output
    exactly once, in order and stripped of surrounding whitespace, whether
    or not the line carries the readiness marker. *)
Theorem monitor_server_echoes_every_line
  (server_name : string) (lines : list string) :
  filter is_print (trace (monitor_server server_name lines)) =
  map (fun line => Print (PyStr.strip line)) lines.
Proof.
  induction lines as [| line lines IH]; [reflexivity|].
  rewrite monitor_server_trace. cbn [filter is_print map].
  rewrite filter_app, IH.
  destruct (PyStr.contains "Done (" line); reflexivity.
Qed.

(** ** More on the heap ceiling *)

(** X12.  The heap ceiling is always below the memory reported: for a host
    with at least 1 GiB it is strictly less than the whole-gigabyte total,
    and it is 0 -- the flag [-Xmx0G], under the fixed [-Xms1G] -- exactly
    when the host has less than 2 GiB. *)
Theorem allocated_memory_small_hosts (total_bytes : Z) :
  0 <= total_bytes < 2 ^ 64 ->
  exists allocated,
    allocated_memory (total_memory total_bytes) = Returned allocated
    /\ 0 <= allocated <= total_memory total_bytes
    /\ (1024 ^ 3 <= total_bytes -> allocated < total_memory total_bytes)
    /\ (allocated = 0 <-> total_bytes < 2 * 1024 ^ 3).
Proof.
  intros H. pose proof (total_memory_range total_bytes H) as Hg.
  exists (total_memory total_bytes * 4 / 5).
  split; [exact (allocated_memory_floor _ Hg)|].
  unfold total_memory in *. change (1024 ^ 3) with 1073741824 in *.
  change (2 ^ 34) with 17179869184 in Hg.
  pose proof (Z.div_mod total_bytes 1073741824 ltac:(lia)).
  pose proof (Z.mod_pos_bound total_bytes 1073741824 ltac:(lia)).
  set (g := total_bytes / 1073741824) in *.
  pose proof (Z.div_mod (g * 4) 5 ltac:(lia)).
  pose proof (Z.mod_pos_bound (g * 4) 5 ltac:(lia)).
  set (a := g * 4 / 5) in *.
  repeat split; lia.
Qed.

Lemma allocated_memory_small_hosts_witness :
  exists allocated,
    allocated_memory (total_memory 2000000000) = Returned allocated
    /\ 0 <= allocated <= total_memory 2000000000
    /\ (1024 ^ 3 <= 2000000000 -> allocated < total_memory 2000000000)
    /\ (allocated = 0 <-> 2000000000 < 2 * 1024 ^ 3).
Proof.
  apply (allocated_memory_small_hosts 2000000000). split; [lia | reflexivity].
Defined.

(** ** The order of the two launches *)

Lemma split_at_unique {A} (P : A -> bool) (x y a b : list A) (e e' : A) :
  (x ++ e :: y = a ++ e' :: b)%list ->
  Forall (fun v => P v = false) x -> P e = true ->
  Forall (fun v => P v = false) y -> P e' = true ->
  a = x /\ e' = e /\ b = y.
Proof.
  revert a. induction x as [| x0 x IH]; intros a Heq Hx He Hy He'.
  - destruct a as [| a0 a]; cbn in Heq.
    + injection Heq as -> ->. auto.
    + injection Heq as -> ->. exfalso.
      rewrite Forall_forall in Hy.
      specialize (Hy e' (in_elt e' a b)). congruence.
  - destruct a as [| a0 a]; cbn in Heq.
    + injection Heq as -> _. exfalso.
      apply Forall_inv in Hx. congruence.
    + injection Heq as -> Heq.
      destruct (IH a Heq (Forall_inv_tail Hx) He Hy He') as (-> & -> & ->).
      auto.
Qed.

Lemma quiet_no_supervision t :
  quiet t -> Forall (fun ev => supervision_event ev = false) t.
Proof.
  unfold quiet. apply Forall_impl. intros ev H.
  destruct ev; try reflexivity; discriminate H.
Qed.

Lemma no_supervision_no_popen_server t :
  Forall (fun ev => supervision_event ev = false) t ->
  Forall (fun ev => is_popen_server ev = false) t.
Proof.
  apply Forall_impl. intros ev H.
  destruct ev as [| | | | | | [] ? | | | | |]; try reflexivity; discriminate H.
Qed.

Lemma no_popen_no_popen_server t :
  Forall (fun ev => is_popen ev = false) t ->
  Forall (fun ev => is_popen_server ev = false) t.
Proof.
  apply Forall_impl. intros ev H.
  destruct ev; try reflexivity; discriminate H.
Qed.

Lemma wait_for_server_no_popen w sp tp :
  Forall (fun ev => is_popen ev = false) (trace (wait_for_server w sp tp)).
Proof.
  rewrite wait_for_server_unfold.
  destruct (wait_result w) as [rc | [| cls msg]], tp as [p |];
    repeat constructor.
Qed.

(** X13.  The tunnel is always started before the game server.  Wherever
    the [java] launch stands in a run of [run_server], everything before it
    is free of launches, waits and terminations of the supervision phase,
    and nothing after it spawns a process: no tunnel is ever started once
    the server is launched, and [java] is launched at most once. *)
Theorem tunnel_starts_before_server
  (w : World) (server_name : string)
  (before after : list event) (cmd : list string) :
  trace (run_server w server_name) = (before ++ Popen ServerProc cmd :: after)%list ->
  Forall (fun ev => supervision_event ev = false) before
  /\ Forall (fun ev => is_popen ev = false) after
  /\ (forall args, ~ In (Popen TunnelProc args) after).
Proof.
  intros Heq.
  assert (Hin : In (Popen ServerProc cmd) (trace (run_server w server_name)))
    by (rewrite Heq; apply in_elt).
  assert (Hgoal : Forall (fun ev => supervision_event ev = false) before
                  /\ Forall (fun ev => is_popen ev = false) after).
  { destruct (run_server_cases w server_name)
      as [Hq | (pre & ts & Hpre & _ & Ht & _)].
    { exfalso. exact (quiet_not_In _ (Popen ServerProc cmd) Hq eq_refl Hin). }
    rewrite Ht in Heq, Hin. clear Ht.
    rewrite run_server_with_start, trace_bind in Heq, Hin.
    destruct (start_selected_spec w ts) as [Hsup _].
    pose proof (quiet_no_supervision pre Hpre) as Hpre'.
    assert (Hprefix : Forall (fun ev => supervision_event ev = false)
                        (pre ++ trace (start_selected w ts)))
      by (apply Forall_app; now split).
    rewrite app_assoc in Heq, Hin.
    set (prefix_events := (pre ++ trace (start_selected w ts))%list) in *.
    clearbody prefix_events. clear Hsup Hpre Hpre'.
    assert (Hlaunch : forall tp,
               trace (launch_server w server_name tp) = []
               \/ exists a y,
                    trace (launch_server w server_name tp) =
                      starting_message :: Popen ServerProc (java_command a) :: y
                    /\ Forall (fun ev => is_popen ev = false) y).
    { intros tp. rewrite launch_server_unfold.
      destruct (allocated_memory (total_memory (total w))) as [a | e];
        [| now left].
      right. exists a.
      destruct (popen_result w ServerProc) as [[] | e].
      - eexists. split; [reflexivity|].
        constructor; [reflexivity | apply wait_for_server_no_popen].
      - exists []. split; [reflexivity | constructor]. }
    destruct (result (start_selected w ts)) as [tp | e0].
    - destruct (Hlaunch tp) as [Hl | (a & y & Hl & Hy)]; rewrite Hl in Heq, Hin.
      + exfalso. rewrite app_nil_r in Hin.
        exact (no_supervision_not_In _ (Popen ServerProc cmd) Hprefix eq_refl Hin).
      + change (prefix_events
                ++ starting_message :: Popen ServerProc (java_command a) :: y)%list
          with (prefix_events
                ++ [starting_message] ++ Popen ServerProc (java_command a) :: y)%list
          in Heq.
        rewrite app_assoc in Heq.
        assert (Hx : Forall (fun ev => supervision_event ev = false)
                       (prefix_events ++ [starting_message]))
          by (apply Forall_app; split; [exact Hprefix | repeat constructor]).
        destruct (split_at_unique is_popen_server _ _ _ _ _ _ Heq
                    (no_supervision_no_popen_server _ Hx) eq_refl
                    (no_popen_no_popen_server _ Hy) eq_refl)
          as (-> & _ & ->).
        split; assumption.
    - exfalso. rewrite app_nil_r in Hin.
      exact (no_supervision_not_In _ (Popen ServerProc cmd) Hprefix eq_refl Hin). }
  destruct Hgoal as [Hb Ha]. split; [exact Hb|]. split; [exact Ha|].
  intros args Hargs. rewrite Forall_forall in Ha.
  specialize (Ha _ Hargs). discriminate Ha.
Qed.

Lemma tunnel_starts_before_server_witness :
  let t := trace (run_server playit_world "survival") in
  In (Popen TunnelProc ["playit"; "run"]) (firstn 10 t)
  /\ Forall (fun ev => supervision_event ev = false) (firstn 10 t)
  /\ Forall (fun ev => is_popen ev = false) (skipn 11 t)
  /\ (forall args, ~ In (Popen TunnelProc args) (skipn 11 t)).
Proof.
  cbv zeta. split.
  - vm_compute. repeat (try (left; reflexivity); right).
  - apply (tunnel_starts_before_server playit_world "survival"
             (firstn 10 (trace (run_server playit_world "survival")))
             (skipn 11 (trace (run_server playit_world "survival")))
             (java_command 12)).
    reflexivity.
Defined.

(** * Version and download resolution *)

Example get_minecraft_versions_sample :
  get_minecraft_versions sample_web =
  ([HttpGet manifest_url],
   Returned [JStr "1.20.4"; JStr "1.20.3"; JStr "1.18.2"]).
Proof. reflexivity. Qed.

Example get_server_download_url_paper_sample :
  get_server_download_url sample_builtins sample_web "paper" "1.20.4" =
  ([HttpGet "https://papermc.io/api/v2/projects/paper/versions/1.20.4"],
   Returned (JStr "https://papermc.io/api/v2/projects/paper/versions/1.20.4/builds/499/downloads/paper-1.20.4-499.jar")).
Proof. reflexivity. Qed.

Example get_server_download_url_vanilla_sample :
  get_server_download_url sample_builtins sample_web "vanilla" "1.20.4" =
  ([HttpGet manifest_url;
    HttpGet "https://piston-meta.mojang.com/1.20.4.json"],
   Returned (JStr "https://piston-data.mojang.com/server.jar")).
Proof. reflexivity. Qed.

Example get_server_download_url_fabric_sample :
  get_server_download_url sample_builtins sample_web "fabric" "1.20.4" =
  ([HttpGet fabric_loader_url; HttpGet fabric_installer_url],
   Returned (JStr "https://meta.fabricmc.net/v2/versions/loader/1.20.4/0.15.11/1.0.1/server/jar")).
Proof. reflexivity. Qed.

(** ** [get_minecraft_versions] *)

Lemma requests_get_unfold web url :
  requests_get web url = ([HttpGet url], http_get web url).
Proof. unfold requests_get. now destruct (http_get web url). Qed.

Lemma str_in_app s l1 l2 : str_in s (l1 ++ l2) = str_in s l1 || str_in s l2.
Proof. unfold str_in. apply existsb_app. Qed.

Lemma fetch_release_versions_offers_1_18_2 web l :
  result (fetch_release_versions web) = Returned (Some l) ->
  str_in "1.18.2" l = true.
Proof.
  unfold fetch_release_versions, requests_get.
  rewrite !result_bind. cbn [emit result snd].
  destruct (http_get web manifest_url) as [r | e]; cbn [lift result snd];
    [| discriminate].
  destruct (status_code r =? 200); [| discriminate].
  rewrite result_bind.
  destruct (json_result r) as [data | e]; cbn [lift result snd];
    [| discriminate].
  rewrite result_bind.
  destruct (get_default data "versions" (JList [])) as [versions | e];
    cbn [lift result snd]; [| discriminate].
  rewrite result_bind.
  destruct (iterate versions) as [items | e]; cbn [lift result snd];
    [| discriminate].
  rewrite result_bind.
  destruct (release_ids items) as [rv | e]; cbn [lift ret result snd];
    [| discriminate].
  intros [= <-].
  destruct (str_in "1.18.2" rv) eqn:E; [exact E|].
  rewrite str_in_app, E. reflexivity.
Qed.

(** X14.  As its docstring promises, [get_minecraft_versions] always offers
    "1.18.2": in the list built from the manifest (appended when absent) and
    in the built-in list it falls back to.  It never lets an [Exception]
    escape -- a failed request, a non-JSON body or a malformed manifest all
    end in the fallback list. *)
Theorem get_minecraft_versions_always_offers_1_18_2 (web : Web) :
  result (get_minecraft_versions web) = Raised KeyboardInterrupt
  \/ exists versions,
       result (get_minecraft_versions web) = Returned versions
       /\ str_in "1.18.2" versions = true.
Proof.
  unfold get_minecraft_versions.
  pose proof (fetch_release_versions_offers_1_18_2 web) as H.
  destruct (fetch_release_versions web) as [t [[l |] | [| cls msg]]];
    cbn in H |- *.
  - right. exists l. split; [reflexivity | now apply H].
  - right. exists default_versions. split; reflexivity.
  - now left.
  - right. exists default_versions. split; reflexivity.
Qed.

Lemma release_ids_manifest entries :
  Forall manifest_entry entries ->
  release_ids entries =
  Returned (map (fun v => field v "id") (filter is_release entries)).
Proof.
  induction 1 as [| v entries [[t Ht] [i Hi]] _ IH]; [reflexivity|].
  assert (Hft : field v "type" = t) by (unfold field; now rewrite Ht).
  assert (Hfi : field v "id" = i) by (unfold field; now rewrite Hi).
  cbn [release_ids filter]. unfold is_release at 1.
  rewrite Ht, Hft. destruct (json_eq_str t "release").
  - rewrite Hi, IH. cbn [map]. now rewrite Hfi.
  - exact IH.
Qed.

(** X15.  From a manifest whose entries all carry a type and an id,
    [get_minecraft_versions] returns the ids of the entries of type
    "release" -- snapshots and the rest are dropped -- in the order of the
    manifest, followed by "1.18.2" when the manifest does not have it, and
    logs nothing. *)
Theorem get_minecraft_versions_lists_releases
  (web : Web) (items : list (string * json)) (entries : list json) :
  http_get web manifest_url = ok (JDict items) ->
  dict_get items "versions" = Some (JList entries) ->
  Forall manifest_entry entries ->
  let releases := map (fun v => field v "id") (filter is_release entries) in
  get_minecraft_versions web =
  ([HttpGet manifest_url],
   Returned (if str_in "1.18.2" releases then releases
             else (releases ++ [JStr "1.18.2"])%list)).
Proof.
  intros Hget Hversions Hentries releases.
  assert (Hfetch : fetch_release_versions web =
                   ([HttpGet manifest_url],
                    Returned (Some (if str_in "1.18.2" releases then releases
                                    else (releases ++ [JStr "1.18.2"])%list)))).
  { unfold fetch_release_versions.
    rewrite requests_get_unfold, Hget. unfold ok. rewrite bind_returned.
    cbn [status_code json_result Z.eqb Pos.eqb].
    rewrite bind_lift_returned. unfold get_default. rewrite Hversions.
    rewrite bind_lift_returned. cbn [iterate]. rewrite bind_lift_returned.
    rewrite (release_ids_manifest entries Hentries), bind_lift_returned.
    reflexivity. }
  unfold get_minecraft_versions. rewrite Hfetch. reflexivity.
Qed.

Lemma get_minecraft_versions_lists_releases_witness :
  get_minecraft_versions sample_web =
  ([HttpGet manifest_url],
   Returned [JStr "1.20.4"; JStr "1.20.3"; JStr "1.18.2"]).
Proof.
  apply (get_minecraft_versions_lists_releases sample_web
           sample_manifest_items sample_entries eq_refl eq_refl).
  repeat constructor; eexists; reflexivity.
Defined.



(** ** The download URL resolvers *)

Lemma last_item_app_last {A} (l : list A) (x : A) :
  PyStr.last_item (l ++ [x]) = Some x.
Proof.
  induction l as [| a l IH]; [reflexivity|].
  cbn [app PyStr.last_item]. rewrite IH.
  destruct (l ++ [x])%list eqn:E; [| reflexivity].
  destruct l; discriminate E.
Qed.

(** X17.  For PaperMC the build downloaded is the last one of the "builds"
    list, whatever precedes it: the URL names that build twice, in the path
    and in the file name, under the page of the version asked for; one
    request is made and nothing is logged. *)
Theorem get_paper_download_url_uses_last_build
  (py : PyBuiltins) (web : Web) (version : string)
  (items : list (string * json)) (builds : list json) (latest : json) :
  http_get web (paper_versions_url version) = ok (JDict items) ->
  dict_get items "builds" = Some (JList (builds ++ [latest])) ->
  truthy py latest = true ->
  get_paper_download_url py web version =
  ([HttpGet (paper_versions_url version)],
   Returned (JStr (paper_versions_url version ++ "/builds/"
                   ++ format py latest ++ "/downloads/paper-" ++ version
                   ++ "-" ++ format py latest ++ ".jar"))).
Proof.
  intros Hget Hbuilds Hlatest. unfold get_paper_download_url.
  rewrite requests_get_unfold, Hget. unfold ok. rewrite bind_returned.
  cbn [status_code json_result Z.eqb Pos.eqb negb].
  rewrite bind_lift_returned. unfold get_default. rewrite Hbuilds.
  rewrite bind_lift_returned.
  assert (Ht : truthy py (JList (builds ++ [latest])) = true)
    by (destruct builds; reflexivity).
  rewrite Ht. cbn [getitem_last]. rewrite last_item_app_last.
  rewrite bind_lift_returned, Hlatest. reflexivity.
Qed.

Lemma get_paper_download_url_uses_last_build_witness :
  get_paper_download_url sample_builtins sample_web "1.20.4" =
  ([HttpGet "https://papermc.io/api/v2/projects/paper/versions/1.20.4"],
   Returned (JStr "https://papermc.io/api/v2/projects/paper/versions/1.20.4/builds/499/downloads/paper-1.20.4-499.jar")).
Proof.
  apply (get_paper_download_url_uses_last_build sample_builtins sample_web
           "1.20.4"
           [("version", JStr "1.20.4");
            ("builds", JList [JNum "435"; JNum "436"; JNum "499"])]
           [JNum "435"; JNum "436"] (JNum "499"));
    reflexivity.
Defined.

(** X18.  PaperMC gives no URL, and says why in one red line, in two
    cases: the service answers with a status other than 200 -- the body is
    then never decoded, so it need not be JSON -- or the answer lists no
    build (no "builds" entry, or an empty list). *)
Theorem get_paper_download_url_without_builds
  (py : PyBuiltins) (web : Web) (version : string) :
  (forall r,
      http_get web (paper_versions_url version) = Returned r ->
      status_code r <> 200 ->
      get_paper_download_url py web version =
      ([HttpGet (paper_versions_url version);
        Log ("Error al obtener versión PaperMC " ++ version ++ ".") RED PyStr.nl],
       Returned JNull))
  /\ (forall items,
         http_get web (paper_versions_url version) = ok (JDict items) ->
         dict_get items "builds" = None
         \/ dict_get items "builds" = Some (JList []) ->
         get_paper_download_url py web version =
         ([HttpGet (paper_versions_url version);
           Log ("No se encontraron builds para PaperMC " ++ version ++ ".")
             RED PyStr.nl],
          Returned JNull)).
Proof.
  split.
  - intros r Hget Hstatus. unfold get_paper_download_url.
    rewrite requests_get_unfold, Hget, bind_returned.
    apply Z.eqb_neq in Hstatus. rewrite Hstatus. reflexivity.
  - intros items Hget Hbuilds. unfold get_paper_download_url.
    rewrite requests_get_unfold, Hget. unfold ok. rewrite bind_returned.
    cbn [status_code json_result Z.eqb Pos.eqb negb].
    rewrite bind_lift_returned. unfold get_default.
    destruct Hbuilds as [-> | ->]; rewrite bind_lift_returned; reflexivity.
Qed.

Lemma get_paper_download_url_without_builds_witness :
  get_paper_download_url sample_builtins sample_web "1.8.9" =
  ([HttpGet (paper_versions_url "1.8.9");
    Log "Error al obtener versión PaperMC 1.8.9." RED PyStr.nl],
   Returned JNull).
Proof.
  apply (proj1 (get_paper_download_url_without_builds sample_builtins
                  sample_web "1.8.9")
           {| status_code := 404;
              json_result :=
                Raised (Exception "JSONDecodeError" "Expecting value") |}).
  - reflexivity.
  - discriminate.
Defined.

Lemma find_version_url_skips version others v rest :
  Forall (other_version version) others ->
  getitem_key v "id" = Returned (JStr version) ->
  find_version_url version (others ++ v :: rest) = getitem_key v "url".
Proof.
  intros Hothers Hid.
  induction Hothers as [| o others (id & Ho & Hne) _ IH].
  - cbn [app find_version_url]. rewrite Hid. cbn [json_eq_str].
    now rewrite String.eqb_refl.
  - cbn [app find_version_url]. now rewrite Ho, Hne.
Qed.

Lemma find_version_url_unknown version entries :
  Forall (other_version version) entries ->
  find_version_url version entries = Returned JNull.
Proof.
  induction 1 as [| o others (id & Ho & Hne) _ IH]; [reflexivity|].
  cbn [find_version_url]. now rewrite Ho, Hne.
Qed.

(** X19.  For a vanilla server the manifest is searched for the first
    entry whose id is the version asked for; the page that entry points to
    is fetched, and its [downloads.server.url] is the result.  Entries after
    the match are not looked at, and the status of the second answer is not
    checked. *)
Theorem get_vanilla_download_url_follows_manifest
  (py : PyBuiltins) (web : Web) (version page : string)
  (items : list (string * json)) (others rest : list json) (entry : json)
  (r : response) (details downloads server : list (string * json))
  (url : json) :
  http_get web manifest_url = ok (JDict items) ->
  dict_get items "versions" = Some (JList (others ++ entry :: rest)) ->
  Forall (other_version version) others ->
  getitem_key entry "id" = Returned (JStr version) ->
  getitem_key entry "url" = Returned (JStr page) ->
  PyStr.is_empty page = false ->
  http_get web page = Returned r ->
  json_result r = Returned (JDict details) ->
  dict_get details "downloads" = Some (JDict downloads) ->
  dict_get downloads "server" = Some (JDict server) ->
  dict_get server "url" = Some url ->
  get_vanilla_download_url py web version =
  ([HttpGet manifest_url; HttpGet page], Returned url).
Proof.
  intros Hget Hversions Hothers Hid Hurl Hpage Hget2 Hbody Hd Hs Hu.
  unfold get_vanilla_download_url.
  rewrite requests_get_unfold, Hget. unfold ok. rewrite bind_returned.
  cbn [status_code json_result Z.eqb Pos.eqb negb].
  rewrite bind_lift_returned. cbn [getitem_key]. rewrite Hversions.
  rewrite bind_lift_returned. cbn [iterate]. rewrite bind_lift_returned.
  rewrite (find_version_url_skips version others entry rest Hothers Hid), Hurl.
  rewrite bind_lift_returned. cbn [truthy]. rewrite Hpage. cbn [negb].
  rewrite format_str, requests_get_unfold, Hget2, bind_returned, Hbody.
  unfold lift. cbn [trace result fst snd app].
  rewrite bind_returned. unfold get_default.
  rewrite Hd, bind_returned, Hs, bind_returned, Hu. reflexivity.
Qed.

Lemma get_vanilla_download_url_follows_manifest_witness :
  get_vanilla_download_url sample_builtins sample_web "1.20.4" =
  ([HttpGet manifest_url;
    HttpGet "https://piston-meta.mojang.com/1.20.4.json"],
   Returned (JStr "https://piston-data.mojang.com/server.jar")).
Proof.
  eapply (get_vanilla_download_url_follows_manifest sample_builtins sample_web
            "1.20.4" "https://piston-meta.mojang.com/1.20.4.json"
            sample_manifest_items
            [JDict [("id", JStr "24w03a"); ("type", JStr "snapshot");
                    ("url", JStr "https://piston-meta.mojang.com/24w03a.json")]]
            [JDict [("id", JStr "1.20.3"); ("type", JStr "release");
                    ("url", JStr "https://piston-meta.mojang.com/1.20.3.json")]]
            (JDict [("id", JStr "1.20.4"); ("type", JStr "release");
                    ("url", JStr "https://piston-meta.mojang.com/1.20.4.json")]));
    try reflexivity.
  repeat constructor. eexists. split; reflexivity.
Defined.

(** X20.  A version the manifest does not list gives no vanilla URL:
    exactly one request is made (the manifest), nothing is logged and the
    result is [None]. *)
Theorem get_vanilla_download_url_unknown_version
  (py : PyBuiltins) (web : Web) (version : string)
  (items : list (string * json)) (entries : list json) :
  http_get web manifest_url = ok (JDict items) ->
  dict_get items "versions" = Some (JList entries) ->
  Forall (other_version version) entries ->
  get_vanilla_download_url py web version =
  ([HttpGet manifest_url], Returned JNull).
Proof.
  intros Hget Hversions Hentries. unfold get_vanilla_download_url.
  rewrite requests_get_unfold, Hget. unfold ok. rewrite bind_returned.
  cbn [status_code json_result Z.eqb Pos.eqb negb].
  rewrite bind_lift_returned. cbn [getitem_key]. rewrite Hversions.
  rewrite bind_lift_returned. cbn [iterate]. rewrite bind_lift_returned.
  rewrite (find_version_url_unknown version entries Hentries).
  rewrite bind_lift_returned. cbn [truthy]. unfold ret.
  rewrite bind_returned. reflexivity.
Qed.

Lemma get_vanilla_download_url_unknown_version_witness :
  get_vanilla_download_url sample_builtins sample_web "1.7.10" =
  ([HttpGet manifest_url], Returned JNull).
Proof.
  apply (get_vanilla_download_url_unknown_version sample_builtins sample_web
           "1.7.10" sample_manifest_items sample_entries eq_refl eq_refl).
  repeat constructor; eexists; split; reflexivity.
Defined.

Lemma first_stable_version_skips py unstable v rest stable :
  Forall (not_stable py) unstable ->
  get_default v "stable" JNull = Returned stable ->
  truthy py stable = true ->
  first_stable_version py (unstable ++ v :: rest) = getitem_key v "version".
Proof.
  intros Hun Hst Ht. induction Hun as [| u unstable (s & Hs & Hf) _ IH].
  - cbn [app first_stable_version]. now rewrite Hst, Ht.
  - cbn [app first_stable_version]. now rewrite Hs, Hf.
Qed.

Lemma first_stable_version_none py unstable :
  Forall (not_stable py) unstable ->
  first_stable_version py unstable = Returned JNull.
Proof.
  induction 1 as [| u unstable (s & Hs & Hf) _ IH]; [reflexivity|].
  cbn [first_stable_version]. now rewrite Hs, Hf.
Qed.

(** X21.  [get_fabric_version] returns the version of the first entry
    marked stable, in the order the service lists them: unstable entries
    before it are passed over, and nothing after it is examined, so later
    entries may be anything.  When no entry is stable the result is [None],
    with nothing logged. *)
Theorem get_fabric_version_takes_first_stable
  (py : PyBuiltins) (web : Web) (api_url : string) (unstable : list json) :
  Forall (not_stable py) unstable ->
  (forall v rest stable version,
      http_get web api_url = ok (JList (unstable ++ v :: rest)) ->
      get_default v "stable" JNull = Returned stable ->
      truthy py stable = true ->
      getitem_key v "version" = Returned version ->
      get_fabric_version py web api_url = ([HttpGet api_url], Returned version))
  /\ (http_get web api_url = ok (JList unstable) ->
      get_fabric_version py web api_url = ([HttpGet api_url], Returned JNull)).
Proof.
  intros Hun. split.
  - intros v rest stable version Hget Hst Ht Hv. unfold get_fabric_version.
    rewrite requests_get_unfold, Hget. unfold ok. rewrite bind_returned.
    cbn [status_code json_result Z.eqb Pos.eqb].
    rewrite bind_lift_returned. cbn [iterate]. rewrite bind_lift_returned.
    rewrite (first_stable_version_skips py unstable v rest stable Hun Hst Ht).
    now rewrite Hv.
  - intros Hget. unfold get_fabric_version.
    rewrite requests_get_unfold, Hget. unfold ok. rewrite bind_returned.
    cbn [status_code json_result Z.eqb Pos.eqb].
    rewrite bind_lift_returned. cbn [iterate]. rewrite bind_lift_returned.
    now rewrite (first_stable_version_none py unstable Hun).
Qed.

Lemma get_fabric_version_takes_first_stable_witness :
  get_fabric_version sample_builtins sample_web fabric_loader_url =
  ([HttpGet fabric_loader_url], Returned (JStr "0.15.11")).
Proof.
  assert (Hun : Forall (not_stable sample_builtins)
                  [JDict [("version", JStr "0.16.0-beta.1");
                          ("stable", JBool false)]])
    by (repeat constructor; eexists; split; reflexivity).
  apply (proj1 (get_fabric_version_takes_first_stable sample_builtins
                  sample_web fabric_loader_url _ Hun)
           (JDict [("version", JStr "0.15.11"); ("stable", JBool true)])
           [JDict [("version", JStr "0.15.10"); ("stable", JBool true)]]
           (JBool true) (JStr "0.15.11"));
    reflexivity.
Defined.

Lemma get_fabric_version_trace py web api_url :
  exists rest, trace (get_fabric_version py web api_url) = HttpGet api_url :: rest.
Proof.
  unfold get_fabric_version. rewrite trace_bind, requests_get_unfold.
  cbn [trace fst app]. eexists. reflexivity.
Qed.

(** X22.  The Fabric URL needs both lookups.  The loader list and the
    installer list are requested in that order, and the installer list is
    requested even when the loader lookup came back empty-handed; the
    result is a URL only if both lookups returned something, and it is then
    the loader path for the game version, the loader version and the
    installer version, in that order. *)
Theorem get_fabric_download_url_needs_both
  (py : PyBuiltins) (web : Web) (version : string) (loader : json) :
  result (get_fabric_version py web fabric_loader_url) = Returned loader ->
  In (HttpGet fabric_installer_url)
     (trace (get_fabric_download_url py web version))
  /\ (forall url,
         result (get_fabric_download_url py web version) = Returned (JStr url) ->
         exists installer,
           result (get_fabric_version py web fabric_installer_url)
             = Returned installer
           /\ truthy py loader = true /\ truthy py installer = true
           /\ url = fabric_loader_url ++ "/" ++ version ++ "/"
                    ++ format py loader ++ "/" ++ format py installer
                    ++ "/server/jar").
Proof.
  intros Hl. unfold get_fabric_download_url. split.
  - rewrite trace_bind, Hl, trace_bind. apply in_or_app. right.
    apply in_or_app. left.
    destruct (get_fabric_version_trace py web fabric_installer_url) as [r ->].
    now left.
  - intros url. rewrite result_bind, Hl, result_bind.
    destruct (result (get_fabric_version py web fabric_installer_url))
      as [installer | e]; [| discriminate].
    cbn [ret result snd].
    destruct (truthy py loader) eqn:Etl; [| discriminate].
    destruct (truthy py installer) eqn:Eti; [| discriminate].
    cbn [andb]. intros [= <-]. exists installer.
    split; [reflexivity|]. split; [reflexivity|]. split; [exact Eti|].
    reflexivity.
Qed.

Lemma get_fabric_download_url_needs_both_witness :
  In (HttpGet fabric_installer_url)
     (trace (get_fabric_download_url sample_builtins sample_web "1.20.4"))
  /\ result (get_fabric_download_url sample_builtins sample_web "1.20.4") =
       Returned (JStr "https://meta.fabricmc.net/v2/versions/loader/1.20.4/0.15.11/1.0.1/server/jar").
Proof.
  split.
  - apply (proj1 (get_fabric_download_url_needs_both sample_builtins sample_web
                    "1.20.4" (JStr "0.15.11") eq_refl)).
  - reflexivity.
Defined.

Lemma string_app_assoc (a b c : string) : (a ++ b) ++ c = a ++ (b ++ c).
Proof. induction a as [| x a IH]; [reflexivity | cbn; now rewrite IH]. Qed.

Lemma returned_jstr_inj (a b : string) :
  @Returned json (JStr a) = Returned (JStr b) -> a = b.
Proof. now intros [= ->]. Qed.

Lemma get_paper_download_url_result py web version url :
  result (get_paper_download_url py web version) = Returned (JStr url) ->
  prefix (paper_versions_url version ++ "/builds/") url = true.
Proof.
  unfold get_paper_download_url.
  rewrite result_bind, requests_get_unfold. cbn [result snd].
  destruct (http_get web (paper_versions_url version)) as [r | e];
    [| discriminate].
  destruct (status_code r =? 200); cbn [negb]; [| discriminate].
  rewrite result_bind.
  destruct (json_result r) as [data | e]; cbn [lift result snd];
    [| discriminate].
  rewrite result_bind.
  destruct (get_default data "builds" (JList [])) as [builds | e];
    cbn [lift result snd]; [| discriminate].
  rewrite result_bind.
  destruct (truthy py builds).
  - destruct (getitem_last builds) as [latest | e]; cbn [lift result snd];
      [| discriminate].
    destruct (truthy py latest); cbn [negb]; [| discriminate].
    unfold ret. cbn [result snd]. intros H.
    apply returned_jstr_inj in H. subst url.
    rewrite <- (string_app_assoc (paper_versions_url version) "/builds/").
    apply prefix_app_self.
  - cbn [ret result snd truthy negb]. discriminate.
Qed.

(** X23.  [get_server_download_url] dispatches on the exact type name.  For
    a type other than "paper", "vanilla" and "fabric" it returns [None]
    without a single request.  Whatever the services answer, a URL returned
    for "paper" lies under the PaperMC page of the version asked for, and
    one returned for "fabric" under the Fabric loader path of that version;
    only for "vanilla" is the URL entirely the remote manifest's choice. *)
Theorem get_server_download_url_shape
  (py : PyBuiltins) (web : Web) (server_type version : string) :
  (server_type <> "paper" -> server_type <> "vanilla" ->
   server_type <> "fabric" ->
   get_server_download_url py web server_type version = ([], Returned JNull))
  /\ (forall url,
         result (get_server_download_url py web server_type version)
           = Returned (JStr url) ->
         (server_type = "paper"
          /\ prefix (paper_versions_url version ++ "/builds/") url = true)
         \/ (server_type = "fabric"
             /\ prefix (fabric_loader_url ++ "/" ++ version ++ "/") url = true)
         \/ server_type = "vanilla").
Proof.
  unfold get_server_download_url. split.
  - intros Hp Hv Hf.
    apply String.eqb_neq in Hp, Hv, Hf. now rewrite Hp, Hv, Hf.
  - intros url.
    destruct (String.eqb server_type "paper") eqn:Ep.
    { apply String.eqb_eq in Ep. intros H. left. split; [exact Ep|].
      exact (get_paper_download_url_result py web version url H). }
    destruct (String.eqb server_type "vanilla") eqn:Ev.
    { apply String.eqb_eq in Ev. intros _. right. right. exact Ev. }
    destruct (String.eqb server_type "fabric") eqn:Ef; [| discriminate].
    apply String.eqb_eq in Ef. intros H. right. left. split; [exact Ef|].
    unfold get_fabric_download_url in H. rewrite result_bind in H.
    destruct (result (get_fabric_version py web fabric_loader_url))
      as [loader | e]; [| discriminate H].
    rewrite result_bind in H.
    destruct (result (get_fabric_version py web fabric_installer_url))
      as [installer | e]; [| discriminate H].
    cbn [ret result snd] in H.
    destruct (truthy py loader && truthy py installer); [| discriminate H].
    apply returned_jstr_inj in H. subst url.
    rewrite <- (string_app_assoc version "/").
    rewrite <- (string_app_assoc "/" (version ++ "/")).
    rewrite <- (string_app_assoc fabric_loader_url ("/" ++ version ++ "/")).
    apply prefix_app_self.
Qed.

Lemma get_server_download_url_shape_witness :
  get_server_download_url sample_builtins sample_web "forge" "1.20.4"
  = ([], Returned JNull).
Proof.
  apply (proj1 (get_server_download_url_shape sample_builtins sample_web
                  "forge" "1.20.4"));
    discriminate.
Defined.
